(** * The job-description upload handler of [backend/app.py]

    A shallow embedding of [process_job_description] (app.py, lines 37-75):
    the allow-list check, the dispatch on the declared media type, the three
    text extractions, the empty-text check and the call of the summarizer;
    and of [process_candidate_cvs] (lines 77-88), the resume endpoint.

    Python values are modelled as follows.
    - [bytes] is a list of bytes, [str] holding document text is a list of
      Unicode code points ([pystr]); media types, file names, log lines and
      HTTP details are [string]s.
    - Exceptions are values of [pyexc]; a call either returns or raises
      ([result]).
    - The handler runs in a [world]: the event trace (log records, reads of
      the upload, calls of the parsers and of the summarizer) and the private
      state of the summarizer.  Handler code lives in the monad [M].
    - The third-party routines ([pdfminer], [python-docx], the summarizer of
      [agents.jd_summarizer]) are the fields of the class [Runtime]. *)

From Stdlib Require Import List String Ascii Bool ZArith NArith Lia.
From Stdlib.Strings Require Import Byte.
From Stdlib Require Import DecimalString.
Import ListNotations.

Local Open Scope Z_scope.

(** ** Python text *)

Definition codepoint := N.
Definition pystr := list codepoint.
Definition bytes := list byte.

(** An ASCII literal of the source as a [pystr]. *)
Definition lit (s : string) : pystr :=
  map N_of_ascii (list_ascii_of_string s).

Definition between (lo hi c : N) : bool := ((lo <=? c) && (c <=? hi))%N.

(** [str.isspace] on one code point: the characters CPython classifies as
    whitespace ([_PyUnicode_IsWhitespace]). *)
Definition isspace (c : codepoint) : bool :=
  (between 0x09 0x0D c || between 0x1C 0x1F c || (c =? 0x20) || (c =? 0x85)
   || (c =? 0xA0) || (c =? 0x1680) || between 0x2000 0x200A c
   || (c =? 0x2028) || (c =? 0x2029) || (c =? 0x202F) || (c =? 0x205F)
   || (c =? 0x3000))%N.

Fixpoint lstrip (s : pystr) : pystr :=
  match s with
  | c :: s' => if isspace c then lstrip s' else s
  | [] => []
  end.

Definition rstrip (s : pystr) : pystr := rev (lstrip (rev s)).

(** [str.strip()] with no argument. *)
Definition strip (s : pystr) : pystr := rstrip (lstrip s).

(** Only whitespace, and at least one character that is not whitespace. *)
Definition blank (s : pystr) : Prop := Forall (fun c => isspace c = true) s.

Definition has_text (s : pystr) : Prop := Exists (fun c => isspace c = false) s.

(** [sep.join(parts)]. *)
Fixpoint join (sep : pystr) (parts : list pystr) : pystr :=
  match parts with
  | [] => []
  | [p] => p
  | p :: rest => p ++ sep ++ join sep rest
  end.

(** Truth value of a [str]: [not text] holds exactly for the empty string. *)
Definition not_ (text : pystr) : bool :=
  match text with [] => true | _ :: _ => false end.

(** ** [bytes.decode("utf-8")], strict error handling

    The well-formed byte sequences of the Unicode standard (table 3-7):
    no overlong forms, no surrogates, nothing above U+10FFFF.  [None] stands
    for the [UnicodeDecodeError] the decoder raises. *)

Definition continuation (b : N) : bool := between 0x80 0xBF b.

Definition second_of_three (b0 b1 : N) : bool :=
  if (b0 =? 0xE0)%N then between 0xA0 0xBF b1
  else if (b0 =? 0xED)%N then between 0x80 0x9F b1
  else continuation b1.

Definition second_of_four (b0 b1 : N) : bool :=
  if (b0 =? 0xF0)%N then between 0x90 0xBF b1
  else if (b0 =? 0xF4)%N then between 0x80 0x8F b1
  else continuation b1.

Definition low6 (b : N) : N := (b - 0x80)%N.

Fixpoint utf8_decode (bs : bytes) : option pystr :=
  match bs with
  | [] => Some []
  | b0 :: r0 =>
      let x0 := Byte.to_N b0 in
      if (x0 <? 0x80)%N then option_map (cons x0) (utf8_decode r0)
      else if between 0xC2 0xDF x0 then
        match r0 with
        | b1 :: r1 =>
            let x1 := Byte.to_N b1 in
            if continuation x1
            then option_map (cons ((x0 - 0xC0) * 64 + low6 x1)%N)
                            (utf8_decode r1)
            else None
        | _ => None
        end
      else if between 0xE0 0xEF x0 then
        match r0 with
        | b1 :: b2 :: r2 =>
            let x1 := Byte.to_N b1 in
            let x2 := Byte.to_N b2 in
            if second_of_three x0 x1 && continuation x2
            then option_map
                   (cons ((x0 - 0xE0) * 4096 + low6 x1 * 64 + low6 x2)%N)
                   (utf8_decode r2)
            else None
        | _ => None
        end
      else if between 0xF0 0xF4 x0 then
        match r0 with
        | b1 :: b2 :: b3 :: r3 =>
            let x1 := Byte.to_N b1 in
            let x2 := Byte.to_N b2 in
            let x3 := Byte.to_N b3 in
            if second_of_four x0 x1 && continuation x2 && continuation x3
            then option_map
                   (cons ((x0 - 0xF0) * 262144 + low6 x1 * 4096
                          + low6 x2 * 64 + low6 x3)%N)
                   (utf8_decode r3)
            else None
        | _ => None
        end
      else None
  end.

(** The bytes of an ASCII literal, for concrete uploads. *)
Definition ascii_bytes (s : string) : bytes := list_byte_of_string s.

(** ** Exceptions, results and the world *)

(** [Exc cls msg] is an instance of a subclass [cls] of [Exception] whose
    [str()] is [msg]; [HTTPException] is FastAPI's, itself a subclass of
    [Exception]. *)
Inductive pyexc : Type :=
| Exc (cls : string) (msg : string)
| HTTPException (status_code : Z) (detail : string).

Definition str_int (n : Z) : string := NilZero.string_of_int (Z.to_int n).

(** [str(e)]. *)
Definition str (e : pyexc) : string :=
  match e with
  | Exc _ msg => msg
  | HTTPException status_code detail =>
      (str_int status_code ++ ": " ++ detail)%string
  end.

Inductive result (A : Type) : Type :=
| Return (a : A)
| Raise (e : pyexc).
Arguments Return {A} a.
Arguments Raise {A} e.

Inductive level := INFO | WARNING | ERROR.

Inductive event : Type :=
| Log (lvl : level) (msg : string)       (* logger.info / warning / error *)
| Read                                    (* await file.read() *)
| ExtractText                             (* extract_text(file.file) *)
| Document                                (* docx.Document(file.file) *)
| Summarize (text : pystr).               (* summarize_job_description(text) *)

(** The collaborators of the handler that are not part of this file. *)
Class Runtime : Type := {
  (** [str()] of the [UnicodeDecodeError] raised on these bytes *)
  decode_error : bytes -> string;
  (** [pdfminer.high_level.extract_text] on a stream with this content *)
  extract_text : bytes -> result pystr;
  (** [docx.Document] on a stream with this content, then the [text] of each
      of [doc.paragraphs], in document order *)
  paragraphs : bytes -> result (list pystr);
  jd_data : Type;
  store : Type;
  (** [agents.jd_summarizer.summarize_job_description] *)
  summarize_job_description :
    pystr -> store -> result (jd_data * Z) * store
}.

Section Handler.

Context {R : Runtime}.

Record world : Type := { trace : list event; db : store }.

Definition M (A : Type) : Type := world -> result A * world.

Definition ret {A} (a : A) : M A := fun w => (Return a, w).

Definition raise {A} (e : pyexc) : M A := fun w => (Raise e, w).

Definition bind {A B} (m : M A) (k : A -> M B) : M B :=
  fun w =>
    match m w with
    | (Return a, w') => k a w'
    | (Raise e, w') => (Raise e, w')
    end.

(** [try: body / except Exception as e: handler e].  Every exception of the
    model is an instance of [Exception]. *)
Definition try_except {A} (body : M A) (handler : pyexc -> M A) : M A :=
  fun w =>
    match body w with
    | (Return a, w') => (Return a, w')
    | (Raise e, w') => handler e w'
    end.

Definition emit (ev : event) : M unit :=
  fun w => (Return tt, {| trace := trace w ++ [ev]; db := db w |}).

Definition logger (lvl : level) (msg : string) : M unit := emit (Log lvl msg).

(** A library call that returns or raises, recorded in the trace. *)
Definition call {A} (ev : event) (r : result A) : M A :=
  fun w => (r, {| trace := trace w ++ [ev]; db := db w |}).

(** The world after more events. *)
Definition logged (w : world) (evs : list event) : world :=
  {| trace := trace w ++ evs; db := db w |}.

End Handler.

Declare Scope py_scope.
Delimit Scope py_scope with py.
Notation "x <- m ;; k" := (bind m (fun x => k))
  (at level 61, m at next level, right associativity) : py_scope.
Notation "m ;;; k" := (bind m (fun _ => k))
  (at level 61, right associativity) : py_scope.

Local Open Scope py_scope.

(** ** The upload and the handler *)

(** Starlette's [UploadFile]: [filename] and [content_type] are optional
    strings, [content] is what the stream [file.file] holds. *)
Record UploadFile : Type := {
  filename : option string;
  content_type : option string;
  content : bytes
}.

(** An optional string inside an f-string. *)
Definition fmt (o : option string) : string :=
  match o with Some s => s | None => "None" end.

(** [x == s] and [x in l] for an optional string [x]. *)
Definition eq_str (x : option string) (s : string) : bool :=
  match x with Some t => String.eqb t s | None => false end.

Definition in_list (x : option string) (l : list string) : bool :=
  existsb (eq_str x) l.

Definition supported_types : list string :=
  [ "text/plain";
    "application/pdf";
    "application/msword";
    "application/vnd.openxmlformats-officedocument.wordprocessingml.document"
  ]%string.

Definition word_types : list string :=
  [ "application/msword";
    "application/vnd.openxmlformats-officedocument.wordprocessingml.document"
  ]%string.

(** The three rejections of the extraction stage (lines 48, 63 and 67). *)
Definition UnsupportedType : pyexc :=
  HTTPException 400 "Unsupported file format".
Definition ExtractionError : pyexc :=
  HTTPException 400 "Failed to extract text from file".
Definition EmptyContent : pyexc :=
  HTTPException 400 "File content is empty".

(** The [if]/[elif]/[else] chain of lines 52-60. *)
Inductive branch : Type := PlainText | Pdf | Word | Fallback.

Definition dispatch (ct : option string) : branch :=
  if eq_str ct "text/plain" then PlainText
  else if eq_str ct "application/pdf" then Pdf
  else if in_list ct word_types then Word
  else Fallback.

(** Exactly one of three conditions holds. *)
Definition exactly_one (c1 c2 c3 : bool) : bool :=
  (c1 && negb c2 && negb c3) || (negb c1 && c2 && negb c3)
  || (negb c1 && negb c2 && c3).

Definition newline : pystr := [0x0A%N].

Section Endpoint.

Context {R : Runtime}.

(** [data.decode("utf-8")]. *)
Definition decode (data : bytes) : M pystr :=
  match utf8_decode data with
  | Some s => ret s
  | None => raise (Exc "UnicodeDecodeError" (decode_error data))
  end.

(** The record of line 51. *)
Definition started (file : UploadFile) : event :=
  Log INFO ("Processing file: " ++ fmt (filename file)
            ++ " (type: " ++ fmt (content_type file) ++ ")").

(** The body of the first [try] (lines 51-60). *)
Definition extract (file : UploadFile) : M pystr :=
  logger INFO ("Processing file: " ++ fmt (filename file)
               ++ " (type: " ++ fmt (content_type file) ++ ")") ;;;
  match dispatch (content_type file) with
  | PlainText =>
      data <- call Read (Return (content file)) ;;
      s <- decode data ;;
      ret (strip s)
  | Pdf =>
      s <- call ExtractText (extract_text (content file)) ;;
      ret (strip s)
  | Word =>
      paras <- call Document (paragraphs (content file)) ;;
      ret (strip (join newline paras))
  | Fallback => raise (HTTPException 400 "Unsupported file format")
  end.

(** Lines 39-67: allow-list, extraction under [try]/[except], empty check.
    It returns the text handed to the summarizer or raises one of the three
    rejections. *)
Definition normalize (file : UploadFile) : M pystr :=
  if negb (in_list (content_type file) supported_types) then
    logger WARNING ("Unsupported file type: " ++ fmt (content_type file)) ;;;
    raise (HTTPException 400 "Unsupported file format")
  else
    text <- try_except (extract file)
              (fun e =>
                 logger ERROR ("Text extraction failed: " ++ str e) ;;;
                 raise (HTTPException 400 "Failed to extract text from file")) ;;
    if not_ text then
      logger WARNING "File content is empty" ;;;
      raise (HTTPException 400 "File content is empty")
    else ret text.

(** The response body [{"jd_data": ..., "jd_id": ...}]. *)
Record response : Type := { resp_jd_data : jd_data; resp_jd_id : Z }.

Definition summarize (text : pystr) : M (jd_data * Z) :=
  fun w =>
    let (r, d) := summarize_job_description text (db w) in
    (r, {| trace := trace w ++ [Summarize text]; db := d |}).

(** Lines 69-75. *)
Definition respond (text : pystr) : M response :=
  try_except
    (r <- summarize text ;;
     logger INFO ("Processed JD ID: " ++ str_int (snd r)) ;;;
     ret {| resp_jd_data := fst r; resp_jd_id := snd r |})
    (fun e =>
       logger ERROR ("JD processing failed: " ++ str e) ;;;
       raise (HTTPException 500 ("Internal server error: " ++ str e))).

(** [process_job_description], the handler of [POST /process-jd/]. *)
Definition process_job_description (file : UploadFile) : M response :=
  text <- normalize file ;;
  respond text.

(** What the caller of a computation sees. *)
Definition outcome {A} (m : M A) (w : world) : result A := fst (m w).

Definition events {A} (m : M A) (w : world) : list event := trace (snd (m w)).

End Endpoint.

(** ** Concrete runtimes, to run the handler *)

(** A runtime from a PDF extractor, a Word parser and a summarizer that keeps
    a counter of the identifiers it has handed out. *)
Definition runtime_of
    (pdf : bytes -> result pystr)
    (docx : bytes -> result (list pystr))
    (summ : pystr -> Z -> result (pystr * Z) * Z) : Runtime :=
  {| decode_error := fun _ => "'utf-8' codec can't decode byte"%string;
     extract_text := pdf;
     paragraphs := docx;
     jd_data := pystr;
     store := Z;
     summarize_job_description := summ |}.

(** Parsers that reject every stream, as on a corrupt upload. *)
Definition corrupt_pdf (_ : bytes) : result pystr :=
  Raise (Exc "PDFSyntaxError" "No /Root object! - Is this really a PDF?").

Definition corrupt_docx (_ : bytes) : result (list pystr) :=
  Raise (Exc "BadZipFile" "File is not a zip file").

(** A Word parser that finds the given paragraphs. *)
Definition docx_with (paras : list pystr) (_ : bytes) : result (list pystr) :=
  Return paras.

(** A summarizer that stores the text under the next identifier. *)
Definition summ_ok (text : pystr) (next : Z) : result (pystr * Z) * Z :=
  (Return (text, next), next + 1).

(** A summarizer that fails with the given message. *)
Definition summ_failing (msg : string) (_ : pystr) (next : Z)
  : result (pystr * Z) * Z :=
  (Raise (Exc "RuntimeError" msg), next).

Definition broken : Runtime := runtime_of corrupt_pdf corrupt_docx summ_ok.

Definition two_lines : Runtime :=
  runtime_of corrupt_pdf (docx_with [lit "Line A"; lit "Line B"]) summ_ok.

Definition blank_document : Runtime :=
  runtime_of corrupt_pdf (docx_with [[]]) summ_ok.

Definition failing (msg : string) : Runtime :=
  runtime_of corrupt_pdf corrupt_docx (summ_failing msg).

Definition world_at (R : Runtime) (t : list event) (d : store) : world :=
  {| trace := t; db := d |}.

Definition w0 (R : Runtime) (d : store) : world := world_at R [] d.

Definition upload (name type : string) (data : bytes) : UploadFile :=
  {| filename := Some name; content_type := Some type; content := data |}.

Definition docx_type : string :=
  "application/vnd.openxmlformats-officedocument.wordprocessingml.document".

(** ** The resume endpoint *)

(** [agents.jd_summarizer.process_cvs], the collaborator of the second
    endpoint; it works on the same store as the summarizer. *)
Class Matcher {R : Runtime} : Type := {
  match_result : Type;
  process_cvs : Z -> list UploadFile -> store -> result match_result * store
}.

Section Candidates.

Context {R : Runtime} {C : Matcher}.

(** [await process_cvs(jd_id, files)]. *)
Definition match_cvs (jd_id : Z) (files : list UploadFile) : M match_result :=
  fun w =>
    let (r, d) := process_cvs jd_id files (db w) in
    (r, {| trace := trace w; db := d |}).

(** [process_candidate_cvs], the handler of [POST /process-cvs/{jd_id}]
    (lines 77-88).  The first [except] clause takes the instances of
    [HTTPException] and raises them again, the second takes the rest. *)
Definition process_candidate_cvs (jd_id : Z) (files : list UploadFile)
  : M match_result :=
  logger INFO ("Processing " ++ str_int (Z.of_nat (List.length files))
               ++ " CV(s) for JD ID: " ++ str_int jd_id) ;;;
  try_except (match_cvs jd_id files)
    (fun e =>
       match e with
       | HTTPException _ _ =>
           logger ERROR ("HTTP error: " ++ str e) ;;;
           raise e
       | Exc _ _ =>
           logger ERROR ("CV processing error: " ++ str e) ;;;
           raise (HTTPException 500 ("Internal server error: " ++ str e))
       end).

End Candidates.

(** ** Counting effects *)

(** The events that touch the upload, and the calls of the summarizer. *)
Definition is_access (ev : event) : bool :=
  match ev with
  | Read | ExtractText | Document => true
  | _ => false
  end.

Definition is_summarize (ev : event) : bool :=
  match ev with
  | Summarize _ => true
  | _ => false
  end.

(** A Unicode scalar value: at most U+10FFFF and no surrogate. *)
Definition scalar (c : codepoint) : Prop :=
  (c <= 0x10FFFF /\ ~ (0xD800 <= c <= 0xDFFF))%N.

(** A byte of the ASCII range. *)
Definition is_ascii (b : byte) : Prop := (Byte.to_N b < 0x80)%N.

(** ** More concrete runtimes *)

(** A PDF extractor that finds the given text. *)
Definition pdf_with (text : pystr) (_ : bytes) : result pystr := Return text.

Definition hello_pdf : Runtime :=
  runtime_of (pdf_with (lit " Hello ")) (docx_with [[]; lit "Hello"; lit " "])
             summ_ok.

(** A Word parser whose result depends on the stream: the empty stream holds
    three paragraphs, every other one the same three between blank ones. *)
Definition docx_padded (data : bytes) : result (list pystr) :=
  match data with
  | [] => Return [lit "Hello"; []; lit "World"]
  | _ :: _ =>
      Return ([[]; lit "  "] ++ [lit "Hello"; []; lit "World"] ++ [lit " "])
  end.

Definition padded_docx : Runtime :=
  runtime_of corrupt_pdf docx_padded summ_ok.

(** A summarizer that raises an [HTTPException]. *)
Definition summ_http (status : Z) (detail : string) (_ : pystr) (next : Z)
  : result (pystr * Z) * Z :=
  (Raise (HTTPException status detail), next).

Definition refusing (status : Z) (detail : string) : Runtime :=
  runtime_of corrupt_pdf corrupt_docx (summ_http status detail).

(** Matchers over the store of [runtime_of]: one that counts the resumes,
    one that raises the given exception. *)
Definition matcher_of {pdf docx summ}
    (f : Z -> list UploadFile -> Z -> result nat * Z)
  : Matcher (R := runtime_of pdf docx summ) :=
  @Build_Matcher (runtime_of pdf docx summ) nat f.


Definition cvs_raising (e : pyexc) (_ : Z) (_ : list UploadFile) (next : Z)
  : result nat * Z := (Raise e, next).

(** ** Running the model on concrete inputs *)

Example run_str_int :
  (str_int 400, str_int 0, str_int (-5)) = ("400", "0", "-5")%string.
Proof. reflexivity. Qed.

(** U+00E9, U+20AC and U+1F600 in one, two, three and four bytes. *)
Example run_decode :
  utf8_decode [x41; xc3; xa9; xe2; x82; xac; xf0; x9f; x98; x80]
  = Some [0x41; 0xE9; 0x20AC; 0x1F600]%N.
Proof. reflexivity. Qed.

(** An overlong form, a surrogate, a code point above U+10FFFF, a lone
    continuation byte and a truncated sequence are all refused. *)
Example run_decode_invalid :
  map utf8_decode
      [[xc0; x80]; [xed; xa0; x80]; [xf4; x90; x80; x80]; [x80]; [xe2; x82]]
  = [None; None; None; None; None].
Proof. reflexivity. Qed.

Example run_strip :
  strip [0x3000; 0x0A; 0x41; 0x20; 0x42; 0x09; 0xA0]%N = [0x41; 0x20; 0x42]%N.
Proof. reflexivity. Qed.

Example run_join :
  join newline [lit "a"; []; lit "b"] = [0x61; 0x0A; 0x0A; 0x62]%N.
Proof. reflexivity. Qed.

Example run_text :
  outcome (R := broken)
          (normalize (upload "jd.txt" "text/plain"
                        (ascii_bytes "  Python developer ")))
          (w0 broken 0)
  = Return (lit "Python developer").
Proof. reflexivity. Qed.

(** A whole request: the text goes to the summarizer, which hands out the
    next identifier. *)
Example run_request :
  process_job_description (R := broken)
    (upload "jd.txt" "text/plain" (ascii_bytes " Go "))
    (w0 broken 7)
  = (Return (@Build_response broken (lit "Go") 7),
     world_at broken
       [Log INFO "Processing file: jd.txt (type: text/plain)"; Read;
        Summarize (lit "Go"); Log INFO "Processed JD ID: 7"] 8).
Proof. reflexivity. Qed.

(** An upload without a declared type. *)
Example run_no_type :
  normalize (R := broken)
    {| filename := None; content_type := None; content := [] |}
    (w0 broken 0)
  = (Raise UnsupportedType,
     world_at broken [Log WARNING "Unsupported file type: None"] 0).
Proof. reflexivity. Qed.

(** ** Facts about [strip] *)

Lemma lstrip_split (s : pystr) :
  exists a, s = a ++ lstrip s /\ blank a.
Proof.
  induction s as [|c s IH]; simpl.
  - exists []. split; [reflexivity | constructor].
  - destruct (isspace c) eqn:Hc.
    + destruct IH as (a & Ha & Hb).
      exists (c :: a). split.
      * simpl. now rewrite <- Ha.
      * now constructor.
    + exists []. split; [reflexivity | constructor].
Qed.

Lemma lstrip_head (s : pystr) :
  lstrip s = [] \/ exists c t, lstrip s = c :: t /\ isspace c = false.
Proof.
  induction s as [|c s IH]; simpl.
  - now left.
  - destruct (isspace c) eqn:Hc; [exact IH | right; now exists c, s].
Qed.

Lemma lstrip_keeps (a b : pystr) (c : codepoint) :
  isspace c = false -> lstrip (a ++ c :: b) = lstrip a ++ c :: b.
Proof.
  intros Hc. induction a as [|x a IH]; simpl.
  - now rewrite Hc.
  - destruct (isspace x); [exact IH | reflexivity].
Qed.

Lemma lstrip_blank (s : pystr) : blank s -> lstrip s = [].
Proof.
  induction 1 as [|c s Hc _ IH]; simpl; [reflexivity | now rewrite Hc].
Qed.

Lemma blank_rev (s : pystr) : blank s -> blank (rev s).
Proof.
  unfold blank. rewrite !Forall_forall. intros H c Hin.
  apply H. now apply in_rev.
Qed.

Lemma rstrip_split (s : pystr) :
  exists b, s = rstrip s ++ b /\ blank b.
Proof.
  unfold rstrip. destruct (lstrip_split (rev s)) as (a & Ha & Hb).
  exists (rev a). split.
  - rewrite <- rev_app_distr, <- Ha. now rewrite rev_involutive.
  - now apply blank_rev.
Qed.

(** [strip] removes a blank prefix and a blank suffix and nothing else. *)
Lemma strip_split (s : pystr) :
  exists a b, s = a ++ strip s ++ b /\ blank a /\ blank b.
Proof.
  destruct (lstrip_split s) as (a & Ha & Hba).
  destruct (rstrip_split (lstrip s)) as (b & Hb & Hbb).
  exists a, b. unfold strip. now rewrite <- Hb, <- Ha.
Qed.

Lemma has_text_not_blank (s : pystr) : has_text s -> ~ blank s.
Proof.
  unfold has_text, blank. rewrite Exists_exists, Forall_forall.
  intros (c & Hin & Hc) H. specialize (H c Hin). congruence.
Qed.

Lemma has_text_app_inv (a s b : pystr) :
  blank a -> blank b -> has_text (a ++ s ++ b) -> has_text s.
Proof.
  unfold has_text, blank. rewrite !Forall_forall, !Exists_exists.
  intros Ha Hb (c & Hin & Hc).
  rewrite !in_app_iff in Hin. destruct Hin as [Hin | [Hin | Hin]].
  - specialize (Ha c Hin). congruence.
  - now exists c.
  - specialize (Hb c Hin). congruence.
Qed.

(** A stripped string is empty or begins and ends with a character that is
    not whitespace. *)
Lemma strip_ends (s : pystr) :
  strip s = [] \/
  exists c d, isspace c = false /\ isspace d = false /\
              hd_error (strip s) = Some c /\ hd_error (rev (strip s)) = Some d.
Proof.
  unfold strip, rstrip. rewrite rev_involutive.
  destruct (lstrip_head s) as [E | (c & t & E & Hc)].
  - left. now rewrite E.
  - right. rewrite E.
    destruct (lstrip_head (rev (c :: t))) as [E' | (d & u & E' & Hd)].
    + exfalso. simpl in E'. rewrite (lstrip_keeps _ [] _ Hc) in E'.
      now destruct (lstrip (rev t)).
    + exists c, d. repeat split; try assumption.
      * simpl. rewrite (lstrip_keeps _ [] _ Hc), rev_app_distr. reflexivity.
      * now rewrite E'.
Qed.

Lemma strip_has_text (s : pystr) : strip s <> [] -> has_text (strip s).
Proof.
  intros Hne. destruct (strip_ends s) as [E | (c & d & Hc & _ & Hh & _)].
  - contradiction.
  - destruct (strip s) as [|x t]; [discriminate|].
    injection Hh as ->. now apply Exists_cons_hd.
Qed.

Lemma strip_blank (s : pystr) : blank s -> strip s = [].
Proof.
  intros H. unfold strip. now rewrite (lstrip_blank s H).
Qed.

Lemma strip_nonempty (s : pystr) : has_text s -> strip s <> [].
Proof.
  intros H E. destruct (strip_split s) as (a & b & Hs & Ha & Hb).
  rewrite E in Hs. simpl in Hs. rewrite Hs in H.
  apply (has_text_app_inv a [] b Ha Hb) in H. inversion H.
Qed.

Lemma not_true_iff (s : pystr) : not_ s = true <-> s = [].
Proof. destruct s; simpl; split; congruence. Qed.

Lemma not_false_iff (s : pystr) : not_ s = false <-> s <> [].
Proof. destruct s; simpl; split; congruence. Qed.

(** ** How the handler runs *)

Lemma in_list_false (ct : option string) (l : list string) :
  (forall s, ct = Some s -> ~ In s l) -> in_list ct l = false.
Proof.
  intros H. destruct ct as [s|]; unfold in_list.
  - specialize (H s eq_refl). induction l as [|x l IH]; simpl; [reflexivity|].
    destruct (String.eqb s x) eqn:E.
    + apply String.eqb_eq in E. subst. exfalso. apply H. now left.
    + apply IH. intros Hin. apply H. now right.
  - clear H. induction l as [|x l IH]; simpl; [reflexivity | assumption].
Qed.

Lemma dispatch_cases (ct : option string) :
  in_list ct supported_types = true ->
  (ct = Some "text/plain"%string /\ dispatch ct = PlainText) \/
  (ct = Some "application/pdf"%string /\ dispatch ct = Pdf) \/
  (in_list ct word_types = true /\ dispatch ct = Word).
Proof.
  destruct ct as [s|]; [|discriminate].
  unfold in_list, dispatch, supported_types, word_types, in_list. simpl.
  destruct (String.eqb s "text/plain") eqn:E1.
  - apply String.eqb_eq in E1. subst. now left.
  - destruct (String.eqb s "application/pdf") eqn:E2.
    + apply String.eqb_eq in E2. subst. right. now left.
    + simpl. intros H. right. right. rewrite H. now split.
Qed.

Section Runs.

Context {R : Runtime}.

Lemma extract_plain (file : UploadFile) (w : world) :
  dispatch (content_type file) = PlainText ->
  extract file w =
  (match utf8_decode (content file) with
   | Some s => Return (strip s)
   | None => Raise (Exc "UnicodeDecodeError" (decode_error (content file)))
   end, logged (logged w [started file]) [Read]).
Proof.
  intros H. unfold extract. rewrite H.
  unfold bind, logger, emit, call, decode, ret, raise. simpl.
  now destruct (utf8_decode (content file)).
Qed.

Lemma extract_pdf (file : UploadFile) (w : world) :
  dispatch (content_type file) = Pdf ->
  extract file w =
  (match extract_text (content file) with
   | Return s => Return (strip s)
   | Raise e => Raise e
   end, logged (logged w [started file]) [ExtractText]).
Proof.
  intros H. unfold extract. rewrite H.
  unfold bind, logger, emit, call, ret. simpl.
  now destruct (extract_text (content file)).
Qed.

Lemma extract_word (file : UploadFile) (w : world) :
  dispatch (content_type file) = Word ->
  extract file w =
  (match paragraphs (content file) with
   | Return paras => Return (strip (join newline paras))
   | Raise e => Raise e
   end, logged (logged w [started file]) [Document]).
Proof.
  intros H. unfold extract. rewrite H.
  unfold bind, logger, emit, call, ret. simpl.
  now destruct (paragraphs (content file)).
Qed.

(** Whatever [extract] returns has been stripped. *)
Lemma extract_stripped (file : UploadFile) (w : world) (t : pystr) :
  outcome (extract file) w = Return t -> exists s, t = strip s.
Proof.
  unfold outcome.
  destruct (dispatch (content_type file)) eqn:D.
  - rewrite (extract_plain _ _ D). simpl.
    destruct (utf8_decode (content file)) as [s|]; [|discriminate].
    intros [= <-]. now exists s.
  - rewrite (extract_pdf _ _ D). simpl.
    destruct (extract_text (content file)) as [s|]; [|discriminate].
    intros [= <-]. now exists s.
  - rewrite (extract_word _ _ D). simpl.
    destruct (paragraphs (content file)) as [ps|]; [|discriminate].
    intros [= <-]. now exists (join newline ps).
  - unfold extract. rewrite D. discriminate.
Qed.

Lemma normalize_unsupported (file : UploadFile) (w : world) :
  in_list (content_type file) supported_types = false ->
  normalize file w =
  (Raise UnsupportedType,
   logged w [Log WARNING ("Unsupported file type: "
                          ++ fmt (content_type file))]).
Proof.
  intros H. unfold normalize. rewrite H. reflexivity.
Qed.

Lemma normalize_supported (file : UploadFile) (w : world) :
  in_list (content_type file) supported_types = true ->
  normalize file w =
  match extract file w with
  | (Return t, w') =>
      if not_ t
      then (Raise EmptyContent, logged w' [Log WARNING "File content is empty"])
      else (Return t, w')
  | (Raise e, w') =>
      (Raise ExtractionError,
       logged w' [Log ERROR ("Text extraction failed: " ++ str e)])
  end.
Proof.
  intros H. unfold normalize. rewrite H. simpl.
  unfold bind, try_except.
  destruct (extract file w) as [[t|e] w']; simpl.
  - now destruct (not_ t).
  - reflexivity.
Qed.

(** The outcome of [normalize] on a supported type, from that of [extract]. *)
Lemma normalize_outcome (file : UploadFile) (w : world) :
  in_list (content_type file) supported_types = true ->
  outcome (normalize file) w =
  match outcome (extract file) w with
  | Return t => if not_ t then Raise EmptyContent else Return t
  | Raise _ => Raise ExtractionError
  end.
Proof.
  intros H. unfold outcome. rewrite (normalize_supported _ _ H).
  destruct (extract file w) as [[t|e] w']; simpl; [now destruct (not_ t)|reflexivity].
Qed.

Lemma word_supported (ct : option string) :
  in_list ct word_types = true -> in_list ct supported_types = true.
Proof.
  destruct ct as [s|]; [|discriminate].
  unfold in_list, word_types, supported_types. simpl.
  intros H. rewrite H. now rewrite !orb_true_r.
Qed.

Lemma word_dispatch (ct : option string) :
  in_list ct word_types = true -> dispatch ct = Word.
Proof.
  intros H. destruct ct as [s|]; [|discriminate].
  unfold dispatch. rewrite H.
  unfold in_list, word_types in H. simpl in H.
  destruct (String.eqb s "application/msword") eqn:E1.
  - apply String.eqb_eq in E1. now subst.
  - destruct (String.eqb s docx_type) eqn:E2.
    + apply String.eqb_eq in E2. now subst.
    + unfold docx_type in E2. rewrite E2 in H. discriminate.
Qed.

End Runs.

(** ** The extraction contract *)

(** C1.  On a supported declared type, every exception that leaves the body of
    the extraction [try] -- in particular the [UnicodeDecodeError] of invalid
    UTF-8, an exception of the PDF extractor and an exception of the Word
    parser -- is turned into [ExtractionError]; the caller of [normalize]
    never sees an exception of a parser. *)
Theorem parse_exception_is_ExtractionError
    {R : Runtime} (file : UploadFile) (w : world) :
  in_list (content_type file) supported_types = true ->
  (forall e, outcome (extract file) w = Raise e ->
             outcome (normalize file) w = Raise ExtractionError) /\
  (content_type file = Some "text/plain"%string ->
   utf8_decode (content file) = None ->
   outcome (normalize file) w = Raise ExtractionError) /\
  (content_type file = Some "application/pdf"%string ->
   forall e, extract_text (content file) = Raise e ->
             outcome (normalize file) w = Raise ExtractionError) /\
  (in_list (content_type file) word_types = true ->
   forall e, paragraphs (content file) = Raise e ->
             outcome (normalize file) w = Raise ExtractionError) /\
  (forall cls msg, outcome (normalize file) w <> Raise (Exc cls msg)).
Proof.
  intros Hs. pose proof (normalize_outcome file w Hs) as Hn.
  repeat split.
  - intros e He. now rewrite Hn, He.
  - intros Hct Hd. rewrite Hn. unfold outcome.
    rewrite extract_plain by now rewrite Hct.
    simpl. now rewrite Hd.
  - intros Hct e He. rewrite Hn. unfold outcome.
    rewrite extract_pdf by now rewrite Hct.
    simpl. now rewrite He.
  - intros Hct e He. rewrite Hn. unfold outcome.
    rewrite extract_word by now apply word_dispatch.
    simpl. now rewrite He.
  - intros cls msg. rewrite Hn.
    destruct (outcome (extract file) w) as [t|e]; [|discriminate].
    destruct (not_ t); discriminate.
Qed.

(** A truncated PDF header, an invalid UTF-8 byte and a broken Word file. *)
Lemma parse_exception_is_ExtractionError_witness :
  outcome (R := broken)
          (normalize (upload "jd.pdf" "application/pdf" (ascii_bytes "%PD")))
          (w0 broken 0) = Raise ExtractionError /\
  outcome (R := broken)
          (normalize (upload "jd.txt" "text/plain" [xff; x41]))
          (w0 broken 0) = Raise ExtractionError /\
  outcome (R := broken)
          (normalize (upload "jd.doc" "application/msword" [xd0; xcf]))
          (w0 broken 0) = Raise ExtractionError.
Proof.
  split; [|split].
  - refine (proj1 (proj2 (proj2
      (parse_exception_is_ExtractionError (R := broken)
         (upload "jd.pdf" "application/pdf" (ascii_bytes "%PD"))
         (w0 broken 0) eq_refl))) eq_refl _ eq_refl).
  - exact (proj1 (proj2
      (parse_exception_is_ExtractionError (R := broken)
         (upload "jd.txt" "text/plain" [xff; x41])
         (w0 broken 0) eq_refl)) eq_refl eq_refl).
  - refine (proj1 (proj2 (proj2 (proj2
      (parse_exception_is_ExtractionError (R := broken)
         (upload "jd.doc" "application/msword" [xd0; xcf])
         (w0 broken 0) eq_refl)))) eq_refl _ eq_refl).
Defined.

(** C2.  A text returned by [normalize] is never empty and never only
    whitespace: it begins and ends with a character that is not whitespace.
    When the extraction succeeds with an empty stripped text, the outcome is
    [EmptyContent]. *)
Theorem success_text_not_blank
    {R : Runtime} (file : UploadFile) (w : world) :
  (forall text, outcome (normalize file) w = Return text ->
     text <> [] /\ ~ blank text /\ has_text text /\ strip text = text) /\
  (in_list (content_type file) supported_types = true ->
   outcome (extract file) w = Return [] ->
   outcome (normalize file) w = Raise EmptyContent).
Proof.
  split.
  - intros text Hr.
    destruct (in_list (content_type file) supported_types) eqn:Hs.
    + rewrite (normalize_outcome _ _ Hs) in Hr.
      destruct (outcome (extract file) w) as [t|e] eqn:He; [|discriminate].
      destruct (not_ t) eqn:Hn; [discriminate|].
      injection Hr as <-.
      apply not_false_iff in Hn.
      destruct (extract_stripped _ _ _ He) as (s & ->).
      pose proof (strip_has_text s Hn) as Ht.
      repeat split; try assumption.
      * now apply has_text_not_blank.
      * destruct (strip_split (strip s)) as (a & b & Hsplit & Ha & Hb).
        destruct (strip_ends s) as [E | (c & d & Hc & Hd & Hh & Hl)];
          [contradiction|].
        assert (a = []) as ->.
        { destruct a as [|x a]; [reflexivity|].
          rewrite Hsplit in Hh. simpl in Hh. injection Hh as ->.
          inversion Ha; congruence. }
        assert (b = []) as ->.
        { destruct (rev b) as [|x b'] eqn:Eb.
          - apply (f_equal (@rev _)) in Eb. rewrite rev_involutive in Eb.
            exact Eb.
          - rewrite Hsplit in Hl. simpl in Hl.
            rewrite rev_app_distr, Eb in Hl. simpl in Hl. injection Hl as ->.
            apply blank_rev in Hb. rewrite Eb in Hb.
            inversion Hb; congruence. }
        simpl in Hsplit. rewrite app_nil_r in Hsplit. now symmetry.
    + unfold outcome in Hr. rewrite (normalize_unsupported _ _ Hs) in Hr.
      discriminate.
  - intros Hs He. now rewrite (normalize_outcome _ _ Hs), He.
Qed.

Lemma success_text_not_blank_witness :
  lit "Python developer" <> [] /\ has_text (lit "Python developer").
Proof.
  destruct (proj1 (success_text_not_blank (R := broken)
                     (upload "jd.txt" "text/plain"
                        (ascii_bytes "  Python developer "))
                     (w0 broken 0))
                  (lit "Python developer") eq_refl) as (H1 & _ & H2 & _).
  exact (conj H1 H2).
Defined.

(** C3.  A declared type outside the allow-list is rejected with
    [UnsupportedType] at once: the only effect is the warning in the log, so
    the upload is not read and no parser is called, and the content has no
    influence on what the handler does. *)
Theorem unsupported_type_fast_reject
    {R : Runtime} (file : UploadFile) (w : world) :
  (forall s, content_type file = Some s -> ~ In s supported_types) ->
  normalize file w =
    (Raise UnsupportedType,
     logged w [Log WARNING ("Unsupported file type: "
                            ++ fmt (content_type file))]) /\
  events (normalize file) w =
    trace w ++ [Log WARNING ("Unsupported file type: "
                             ++ fmt (content_type file))] /\
  (forall data,
     normalize {| filename := filename file;
                  content_type := content_type file;
                  content := data |} w
     = normalize file w) /\
  outcome (process_job_description file) w = Raise UnsupportedType.
Proof.
  intros H. apply in_list_false in H.
  pose proof (normalize_unsupported file w H) as Hn.
  repeat split.
  - exact Hn.
  - unfold events. now rewrite Hn.
  - intros data. now rewrite Hn, normalize_unsupported.
  - unfold outcome, process_job_description, bind. now rewrite Hn.
Qed.

Lemma unsupported_type_fast_reject_witness :
  outcome (R := broken)
          (normalize (upload "jd.png" "image/png" (ascii_bytes "PNG")))
          (w0 broken 0) = Raise UnsupportedType /\
  events (R := broken)
         (normalize (upload "jd.png" "image/png" (ascii_bytes "PNG")))
         (w0 broken 0) = [Log WARNING "Unsupported file type: image/png"].
Proof.
  assert (forall s, Some "image/png"%string = Some s -> ~ In s supported_types)
    as H.
  { intros s [= <-]. simpl. intuition discriminate. }
  destruct (unsupported_type_fast_reject (R := broken)
              (upload "jd.png" "image/png" (ascii_bytes "PNG"))
              (w0 broken 0) H) as (H1 & H2 & _).
  split; [exact (f_equal fst H1) | exact H2].
Defined.

(** C4.  Plain text that is valid UTF-8 and has a character that is not
    whitespace is returned stripped: the result is the decoded text without a
    prefix and a suffix of whitespace, and it begins and ends with characters
    that are not whitespace. *)
Theorem plain_text_success
    {R : Runtime} (file : UploadFile) (w : world) (s : pystr) :
  content_type file = Some "text/plain"%string ->
  utf8_decode (content file) = Some s ->
  has_text s ->
  outcome (normalize file) w = Return (strip s) /\
  exists a b c d,
    s = a ++ strip s ++ b /\ blank a /\ blank b /\
    hd_error (strip s) = Some c /\ isspace c = false /\
    hd_error (rev (strip s)) = Some d /\ isspace d = false.
Proof.
  intros Hct Hd Ht.
  pose proof (strip_nonempty s Ht) as Hne.
  split.
  - rewrite normalize_outcome by now rewrite Hct.
    unfold outcome. rewrite extract_plain by now rewrite Hct.
    simpl. rewrite Hd.
    apply not_false_iff in Hne. now rewrite Hne.
  - destruct (strip_split s) as (a & b & Hs & Ha & Hb).
    destruct (strip_ends s) as [E | (c & d & Hc & Hd' & Hh & Hl)];
      [contradiction|].
    exists a, b, c, d. repeat split; assumption.
Qed.

Lemma plain_text_success_witness :
  outcome (R := broken)
          (normalize (upload "jd.txt" "text/plain"
                        (ascii_bytes "  Python developer ")))
          (w0 broken 0) = Return (lit "Python developer").
Proof.
  refine (proj1 (plain_text_success (R := broken)
                   (upload "jd.txt" "text/plain"
                      (ascii_bytes "  Python developer "))
                   (w0 broken 0) (lit "  Python developer ")
                   eq_refl eq_refl _)).
  apply Exists_cons_tl, Exists_cons_tl, Exists_cons_hd. reflexivity.
Defined.

(** C6.  Plain text that is valid UTF-8 and holds nothing but whitespace is
    rejected with [EmptyContent]. *)
Theorem plain_text_blank
    {R : Runtime} (file : UploadFile) (w : world) (s : pystr) :
  content_type file = Some "text/plain"%string ->
  utf8_decode (content file) = Some s ->
  blank s ->
  outcome (normalize file) w = Raise EmptyContent /\
  EmptyContent <> ExtractionError /\
  forall t, outcome (normalize file) w <> Return t.
Proof.
  intros Hct Hd Hb.
  assert (outcome (normalize file) w = Raise EmptyContent) as Hn.
  { rewrite normalize_outcome by now rewrite Hct.
    unfold outcome. rewrite extract_plain by now rewrite Hct.
    simpl. rewrite Hd. now rewrite (strip_blank s Hb). }
  repeat split.
  - exact Hn.
  - discriminate.
  - intros t. rewrite Hn. discriminate.
Qed.

(** The upload [b"   \n\t  "]. *)
Lemma plain_text_blank_witness :
  outcome (R := broken)
          (normalize (upload "jd.txt" "text/plain"
                        [x20; x20; x20; x0a; x09; x20; x20]))
          (w0 broken 0) = Raise EmptyContent.
Proof.
  refine (proj1 (plain_text_blank (R := broken)
                   (upload "jd.txt" "text/plain"
                      [x20; x20; x20; x0a; x09; x20; x20])
                   (w0 broken 0) [32; 32; 32; 10; 9; 32; 32]%N
                   eq_refl eq_refl _)).
  repeat constructor.
Defined.

(** ** Word documents *)

Lemma word_outcome {R : Runtime} (file : UploadFile) (w : world)
    (ps : list pystr) :
  in_list (content_type file) word_types = true ->
  paragraphs (content file) = Return ps ->
  outcome (normalize file) w =
  if not_ (strip (join newline ps)) then Raise EmptyContent
  else Return (strip (join newline ps)).
Proof.
  intros Hct Hp.
  rewrite normalize_outcome by now apply word_supported.
  unfold outcome. rewrite extract_word by now apply word_dispatch.
  simpl. now rewrite Hp.
Qed.

(** C5, counterexample.  A well-formed Word document whose only paragraph is
    empty is rejected with [EmptyContent]: not every Word document that
    parses is a success. *)
Lemma blank_word_document_rejected :
  paragraphs (Runtime := blank_document) (ascii_bytes "PK") = Return [[]] /\
  outcome (R := blank_document)
          (normalize (upload "blank.docx" docx_type (ascii_bytes "PK")))
          (w0 blank_document 0) = Raise EmptyContent /\
  ~ (forall (R : Runtime) (file : UploadFile) (w : world) (ps : list pystr),
       in_list (content_type file) word_types = true ->
       paragraphs (content file) = Return ps ->
       outcome (normalize file) w = Return (strip (join newline ps))).
Proof.
  split; [reflexivity | split; [reflexivity |]].
  intros H.
  specialize (H blank_document
                (upload "blank.docx" docx_type (ascii_bytes "PK"))
                (w0 blank_document 0) [[]] eq_refl eq_refl).
  discriminate H.
Qed.

(** C5.  For a Word document (either declared type) that parses
    into the paragraphs [ps], the text is the paragraphs joined by newlines
    and stripped; [normalize] returns it when it has a character that is not
    whitespace and raises [EmptyContent] when it has none.  The paragraphs
    "Line A" and "Line B" give "Line A\nLine B". *)
Theorem word_paragraphs_joined
    {R : Runtime} (file : UploadFile) (w : world) (ps : list pystr) :
  in_list (content_type file) word_types = true ->
  paragraphs (content file) = Return ps ->
  (has_text (join newline ps) ->
   outcome (normalize file) w = Return (strip (join newline ps))) /\
  (blank (join newline ps) ->
   outcome (normalize file) w = Raise EmptyContent) /\
  (ps = [lit "Line A"; lit "Line B"] ->
   outcome (normalize file) w = Return (lit "Line A" ++ newline ++ lit "Line B")).
Proof.
  intros Hct Hp. pose proof (word_outcome file w ps Hct Hp) as Hn.
  repeat split.
  - intros Ht. rewrite Hn.
    apply strip_nonempty, not_false_iff in Ht. now rewrite Ht.
  - intros Hb. rewrite Hn. now rewrite (strip_blank _ Hb).
  - intros ->. rewrite Hn. reflexivity.
Qed.

Lemma word_paragraphs_joined_witness :
  outcome (R := two_lines)
          (normalize (upload "jd.docx" docx_type (ascii_bytes "PK")))
          (w0 two_lines 0)
  = Return (lit "Line A" ++ newline ++ lit "Line B") /\
  outcome (R := two_lines)
          (normalize (upload "jd.doc" "application/msword" (ascii_bytes "PK")))
          (w0 two_lines 0)
  = Return (lit "Line A" ++ newline ++ lit "Line B").
Proof.
  split.
  - exact (proj2 (proj2
      (word_paragraphs_joined (R := two_lines)
         (upload "jd.docx" docx_type (ascii_bytes "PK"))
         (w0 two_lines 0) [lit "Line A"; lit "Line B"] eq_refl eq_refl))
      eq_refl).
  - exact (proj2 (proj2
      (word_paragraphs_joined (R := two_lines)
         (upload "jd.doc" "application/msword" (ascii_bytes "PK"))
         (w0 two_lines 0) [lit "Line A"; lit "Line B"] eq_refl eq_refl))
      eq_refl).
Defined.

(** ** The summarizer *)

Lemma respond_failure {R : Runtime} (text : pystr) (w : world)
    (e : pyexc) (d : store) :
  summarize_job_description text (db w) = (Raise e, d) ->
  respond text w =
  (Raise (HTTPException 500 ("Internal server error: " ++ str e)),
   {| trace := (trace w ++ [Summarize text])
               ++ [Log ERROR ("JD processing failed: " ++ str e)];
      db := d |}).
Proof.
  intros H. unfold respond, try_except, bind, summarize. now rewrite H.
Qed.

Lemma process_failure {R : Runtime} (file : UploadFile) (w w' : world)
    (text : pystr) (e : pyexc) (d : store) :
  normalize file w = (Return text, w') ->
  summarize_job_description text (db w') = (Raise e, d) ->
  outcome (process_job_description file) w =
  Raise (HTTPException 500 ("Internal server error: " ++ str e)).
Proof.
  intros Hn Hs. unfold outcome, process_job_description, bind.
  rewrite Hn. now rewrite (respond_failure _ _ _ _ Hs).
Qed.

Lemma process_rejected {R : Runtime} (file : UploadFile) (w : world)
    (e : pyexc) :
  outcome (normalize file) w = Raise e ->
  outcome (process_job_description file) w = Raise e.
Proof.
  unfold outcome, process_job_description, bind.
  destruct (normalize file w) as [[t|e'] w']; simpl; [discriminate|].
  now intros [= ->].
Qed.

Lemma normalize_rejections {R : Runtime} (file : UploadFile) (w : world)
    (e : pyexc) :
  outcome (normalize file) w = Raise e ->
  e = UnsupportedType \/ e = ExtractionError \/ e = EmptyContent.
Proof.
  destruct (in_list (content_type file) supported_types) eqn:Hs.
  - rewrite (normalize_outcome _ _ Hs).
    destruct (outcome (extract file) w) as [t|e'].
    + destruct (not_ t); [|discriminate]. intros [= <-]. tauto.
    + intros [= <-]. tauto.
  - unfold outcome. rewrite (normalize_unsupported _ _ Hs).
    intros [= <-]. tauto.
Qed.

(** C7, counterexample.  The handler puts the text of the summarizer's
    exception into the detail of the response, so there is no one generic
    error that it reports whatever the summarizer raised. *)
Lemma summarizer_error_text_exposed :
  outcome (R := failing "connection to db01 refused")
          (process_job_description
             (upload "jd.txt" "text/plain" (ascii_bytes "Python developer")))
          (w0 (failing "connection to db01 refused") 0)
  = Raise (HTTPException 500
             "Internal server error: connection to db01 refused") /\
  ~ (exists generic : pyexc, forall msg : string,
       outcome (R := failing msg)
               (process_job_description
                  (upload "jd.txt" "text/plain"
                     (ascii_bytes "Python developer")))
               (w0 (failing msg) 0)
       = Raise generic).
Proof.
  split; [reflexivity|].
  intros (generic & H).
  pose proof (H "a"%string) as Ha. pose proof (H "b"%string) as Hb.
  vm_compute in Ha, Hb. congruence.
Qed.

(** C7.  An exception of the summarizer, raised after a successful
    extraction, is caught and reported with status 500 and the detail
    "Internal server error: " followed by the text of the exception; this is
    none of the three rejections of the extraction stage, which all have
    status 400.  The text of a parser's exception is not exposed: whatever
    the parser raised, the response is the fixed [ExtractionError]. *)
Theorem summarizer_failure_is_500
    {R : Runtime} (file : UploadFile) (w : world) :
  (forall text w' e d,
     normalize file w = (Return text, w') ->
     summarize_job_description text (db w') = (Raise e, d) ->
     outcome (process_job_description file) w
     = Raise (HTTPException 500 ("Internal server error: " ++ str e)) /\
     outcome (process_job_description file) w <> Raise UnsupportedType /\
     outcome (process_job_description file) w <> Raise ExtractionError /\
     outcome (process_job_description file) w <> Raise EmptyContent) /\
  (forall e,
     in_list (content_type file) supported_types = true ->
     outcome (extract file) w = Raise e ->
     outcome (process_job_description file) w = Raise ExtractionError).
Proof.
  split.
  - intros text w' e d Hn Hs.
    rewrite (process_failure _ _ _ _ _ _ Hn Hs).
    repeat split; discriminate.
  - intros e Hs He. apply process_rejected.
    now rewrite (normalize_outcome _ _ Hs), He.
Qed.

Lemma summarizer_failure_is_500_witness :
  outcome (R := failing "out of memory")
          (process_job_description
             (upload "jd.txt" "text/plain" (ascii_bytes "Python developer")))
          (w0 (failing "out of memory") 0)
  = Raise (HTTPException 500 "Internal server error: out of memory").
Proof.
  exact (proj1 (proj1
    (summarizer_failure_is_500 (R := failing "out of memory")
       (upload "jd.txt" "text/plain" (ascii_bytes "Python developer"))
       (w0 (failing "out of memory") 0))
    _ _ (Exc "RuntimeError" "out of memory") _ eq_refl eq_refl)).
Defined.

(** ** Determinism *)

Lemma extract_outcome_eq {R : Runtime} (f1 f2 : UploadFile) (w1 w2 : world) :
  content_type f1 = content_type f2 ->
  content f1 = content f2 ->
  outcome (extract f1) w1 = outcome (extract f2) w2.
Proof.
  intros Hct Hc. unfold outcome.
  destruct (dispatch (content_type f2)) eqn:D.
  - rewrite !extract_plain by congruence. simpl. now rewrite Hc.
  - rewrite !extract_pdf by congruence. simpl. now rewrite Hc.
  - rewrite !extract_word by congruence. simpl. now rewrite Hc.
  - unfold extract. rewrite Hct, D. reflexivity.
Qed.

Lemma extract_db {R : Runtime} (file : UploadFile) (w : world) :
  db (snd (extract file w)) = db w.
Proof.
  destruct (dispatch (content_type file)) eqn:D.
  - now rewrite extract_plain.
  - now rewrite extract_pdf.
  - now rewrite extract_word.
  - unfold extract. rewrite D. reflexivity.
Qed.

(** C8.  The outcome of [normalize] is a function of the declared type and
    of the content alone: the file name, the log written so far and the state
    of the summarizer do not influence it, and [normalize] leaves the state
    of the summarizer as it found it. *)
Theorem normalize_deterministic
    {R : Runtime} (f1 f2 : UploadFile) (w1 w2 : world) :
  content_type f1 = content_type f2 ->
  content f1 = content f2 ->
  outcome (normalize f1) w1 = outcome (normalize f2) w2 /\
  db (snd (normalize f1 w1)) = db w1.
Proof.
  intros Hct Hc. split.
  - destruct (in_list (content_type f2) supported_types) eqn:Hs.
    + rewrite !normalize_outcome by congruence.
      now rewrite (extract_outcome_eq f1 f2 w1 w2 Hct Hc).
    + unfold outcome. rewrite !normalize_unsupported by congruence.
      reflexivity.
  - destruct (in_list (content_type f1) supported_types) eqn:Hs.
    + rewrite (normalize_supported _ _ Hs).
      pose proof (extract_db f1 w1) as Hdb.
      destruct (extract f1 w1) as [[t|e] w']; simpl in *.
      * now destruct (not_ t).
      * exact Hdb.
    + now rewrite (normalize_unsupported _ _ Hs).
Qed.

Lemma normalize_deterministic_witness :
  outcome (R := broken)
          (normalize (upload "a.txt" "text/plain" (ascii_bytes " Rust ")))
          (w0 broken 0)
  = outcome (R := broken)
            (normalize (upload "b.txt" "text/plain" (ascii_bytes " Rust ")))
            (world_at broken [Log INFO "Processed JD ID: 6"; Read] 7).
Proof.
  exact (proj1
    (normalize_deterministic (R := broken)
       (upload "a.txt" "text/plain" (ascii_bytes " Rust "))
       (upload "b.txt" "text/plain" (ascii_bytes " Rust "))
       (w0 broken 0)
       (world_at broken [Log INFO "Processed JD ID: 6"; Read] 7)
       eq_refl eq_refl)).
Defined.

(** ** The dispatch *)

Lemma one_condition (ct : option string) :
  in_list ct supported_types = true ->
  exactly_one (eq_str ct "text/plain") (eq_str ct "application/pdf")
              (in_list ct word_types) = true.
Proof.
  destruct ct as [s|]; [|discriminate].
  unfold in_list, supported_types, word_types, exactly_one. simpl.
  destruct (String.eqb s "text/plain") eqn:E1.
  - apply String.eqb_eq in E1. now subst.
  - destruct (String.eqb s "application/pdf") eqn:E2.
    + apply String.eqb_eq in E2. now subst.
    + simpl. intros H. now rewrite H.
Qed.

(** C9.  Once the declared type has passed the allow-list, the chain of
    [if]/[elif] takes exactly one of the three extraction branches -- exactly
    one of the three conditions holds, and the body of the [try] performs the
    one read or parser call of that branch -- and never reaches the [else]
    that raises "Unsupported file format" inside the [try]. *)
Theorem dispatch_exhaustive
    {R : Runtime} (file : UploadFile) (w : world) :
  in_list (content_type file) supported_types = true ->
  dispatch (content_type file) <> Fallback /\
  exactly_one (eq_str (content_type file) "text/plain")
              (eq_str (content_type file) "application/pdf")
              (in_list (content_type file) word_types) = true /\
  ((dispatch (content_type file) = PlainText /\
    events (extract file) w = (trace w ++ [started file]) ++ [Read]) \/
   (dispatch (content_type file) = Pdf /\
    events (extract file) w = (trace w ++ [started file]) ++ [ExtractText]) \/
   (dispatch (content_type file) = Word /\
    events (extract file) w = (trace w ++ [started file]) ++ [Document])).
Proof.
  intros Hs. split; [|split].
  - destruct (dispatch_cases _ Hs) as [[_ D] | [[_ D] | [_ D]]];
      rewrite D; discriminate.
  - now apply one_condition.
  - unfold events.
    destruct (dispatch_cases _ Hs) as [[_ D] | [[_ D] | [_ D]]].
    + left. split; [exact D|]. now rewrite (extract_plain _ _ D).
    + right. left. split; [exact D|]. now rewrite (extract_pdf _ _ D).
    + right. right. split; [exact D|]. now rewrite (extract_word _ _ D).
Qed.

Lemma dispatch_exhaustive_witness :
  dispatch (Some "application/msword"%string) <> Fallback /\
  events (R := two_lines)
         (extract (upload "jd.doc" "application/msword" (ascii_bytes "PK")))
         (w0 two_lines 0)
  = [Log INFO "Processing file: jd.doc (type: application/msword)"; Document].
Proof.
  destruct (dispatch_exhaustive (R := two_lines)
              (upload "jd.doc" "application/msword" (ascii_bytes "PK"))
              (w0 two_lines 0) eq_refl) as (H1 & _ & H3).
  split; [exact H1|].
  destruct H3 as [[D _] | [[D _] | [_ E]]];
    [discriminate D | discriminate D | exact E].
Defined.

(** ** Status codes *)

(** C10.  The three rejections of [normalize] reach the HTTP caller as they
    are, all with status 400 and with three different details; a failure of
    the summarizer reaches it with status 500. *)
Theorem failure_status_codes
    {R : Runtime} (file : UploadFile) (w : world) :
  (forall e, outcome (normalize file) w = Raise e ->
     outcome (process_job_description file) w = Raise e /\
     exists detail,
       e = HTTPException 400 detail /\
       In detail ["Unsupported file format";
                  "Failed to extract text from file";
                  "File content is empty"]%string) /\
  UnsupportedType = HTTPException 400 "Unsupported file format" /\
  ExtractionError = HTTPException 400 "Failed to extract text from file" /\
  EmptyContent = HTTPException 400 "File content is empty" /\
  NoDup ["Unsupported file format";
         "Failed to extract text from file";
         "File content is empty"]%string /\
  (forall text w' e d,
     normalize file w = (Return text, w') ->
     summarize_job_description text (db w') = (Raise e, d) ->
     exists detail,
       outcome (process_job_description file) w
       = Raise (HTTPException 500 detail)).
Proof.
  split; [|split; [|split; [|split; [|split]]]]; try reflexivity.
  - intros e He. split; [now apply process_rejected|].
    destruct (normalize_rejections _ _ _ He) as [-> | [-> | ->]];
      eexists; (split; [reflexivity | simpl; tauto]).
  - repeat constructor; simpl; intuition discriminate.
  - intros text w' e d Hn Hs. eexists.
    exact (process_failure _ _ _ _ _ _ Hn Hs).
Qed.

Lemma failure_status_codes_witness :
  outcome (R := failing "disk full")
          (process_job_description
             (upload "jd.png" "image/png" (ascii_bytes "PNG")))
          (w0 (failing "disk full") 0)
  = Raise (HTTPException 400 "Unsupported file format") /\
  outcome (R := failing "disk full")
          (process_job_description
             (upload "jd.pdf" "application/pdf" (ascii_bytes "%PD")))
          (w0 (failing "disk full") 0)
  = Raise (HTTPException 400 "Failed to extract text from file") /\
  outcome (R := failing "disk full")
          (process_job_description
             (upload "jd.txt" "text/plain" (ascii_bytes "  ")))
          (w0 (failing "disk full") 0)
  = Raise (HTTPException 400 "File content is empty") /\
  exists detail,
    outcome (R := failing "disk full")
            (process_job_description
               (upload "jd.txt" "text/plain" (ascii_bytes "Go developer")))
            (w0 (failing "disk full") 0)
    = Raise (HTTPException 500 detail).
Proof.
  split; [|split; [|split]].
  - exact (proj1 (proj1
      (failure_status_codes (R := failing "disk full")
         (upload "jd.png" "image/png" (ascii_bytes "PNG"))
         (w0 (failing "disk full") 0)) _ eq_refl)).
  - exact (proj1 (proj1
      (failure_status_codes (R := failing "disk full")
         (upload "jd.pdf" "application/pdf" (ascii_bytes "%PD"))
         (w0 (failing "disk full") 0)) _ eq_refl)).
  - exact (proj1 (proj1
      (failure_status_codes (R := failing "disk full")
         (upload "jd.txt" "text/plain" (ascii_bytes "  "))
         (w0 (failing "disk full") 0)) _ eq_refl)).
  - exact (proj2 (proj2 (proj2 (proj2 (proj2
      (failure_status_codes (R := failing "disk full")
         (upload "jd.txt" "text/plain" (ascii_bytes "Go developer"))
         (w0 (failing "disk full") 0))))))
      _ _ (Exc "RuntimeError" "disk full") _ eq_refl eq_refl).
Defined.

(** ** What a request does to the world *)

Section Effects.

Context {R : Runtime}.

Lemma logged_logged (w : world) (a b : list event) :
  logged (logged w a) b = logged w (a ++ b).
Proof. unfold logged. simpl. now rewrite app_assoc. Qed.

Lemma extract_world (file : UploadFile) (w : world) :
  exists evs,
    snd (extract file w) = logged w (started file :: evs) /\
    (evs = [] \/ exists ev, evs = [ev] /\ is_access ev = true).
Proof.
  destruct (dispatch (content_type file)) eqn:D.
  - exists [Read]. rewrite (extract_plain _ _ D), logged_logged.
    split; [reflexivity | right; now exists Read].
  - exists [ExtractText]. rewrite (extract_pdf _ _ D), logged_logged.
    split; [reflexivity | right; now exists ExtractText].
  - exists [Document]. rewrite (extract_word _ _ D), logged_logged.
    split; [reflexivity | right; now exists Document].
  - exists []. unfold extract. rewrite D. split; [reflexivity | now left].
Qed.

(** The events of [normalize]: log records and at most one access to the
    upload, never a call of the summarizer. *)
Lemma normalize_world (file : UploadFile) (w : world) :
  exists evs,
    snd (normalize file w) = logged w evs /\
    (List.length (filter is_access evs) <= 1)%nat /\
    filter is_summarize evs = [].
Proof.
  destruct (in_list (content_type file) supported_types) eqn:Hs.
  - rewrite (normalize_supported _ _ Hs).
    destruct (extract_world file w) as (evs & Hw & Hevs).
    destruct (extract file w) as [[t|e] w']; simpl in Hw; subst w'.
    + destruct (not_ t).
      * exists ((started file :: evs) ++ [Log WARNING "File content is empty"]).
        rewrite logged_logged. split; [reflexivity|].
        destruct Hevs as [-> | (ev & -> & Hev)]; simpl;
          [|rewrite Hev; destruct ev; try discriminate]; simpl; split;
          (lia || reflexivity).
      * exists (started file :: evs). split; [reflexivity|].
        destruct Hevs as [-> | (ev & -> & Hev)]; simpl;
          [|rewrite Hev; destruct ev; try discriminate]; simpl; split;
          (lia || reflexivity).
    + exists ((started file :: evs)
              ++ [Log ERROR ("Text extraction failed: " ++ str e)]).
      rewrite logged_logged. split; [reflexivity|].
      destruct Hevs as [-> | (ev & -> & Hev)]; simpl;
        [|rewrite Hev; destruct ev; try discriminate]; simpl; split;
        (lia || reflexivity).
  - rewrite (normalize_unsupported _ _ Hs).
    eexists. split; [reflexivity|]. simpl. split; [lia | reflexivity].
Qed.

Lemma respond_world (text : pystr) (w : world) :
  exists lvl msg d,
    snd (respond text w)
    = {| trace := trace w ++ [Summarize text; Log lvl msg]; db := d |}.
Proof.
  unfold respond, try_except, bind, summarize.
  destruct (summarize_job_description text (db w)) as [[[data id]|e] d];
    simpl; do 3 eexists; rewrite <- app_assoc; reflexivity.
Qed.

Lemma strip_idempotent (s : pystr) : strip (strip s) = strip s.
Proof.
  destruct (strip_split (strip s)) as (a & b & Hsplit & Ha & Hb).
  destruct (strip_ends s) as [E | (c & d & Hc & Hd & Hh & Hl)].
  - rewrite E. reflexivity.
  - assert (a = []) as ->.
    { destruct a as [|x a]; [reflexivity|].
      rewrite Hsplit in Hh. simpl in Hh. injection Hh as ->.
      inversion Ha; congruence. }
    assert (b = []) as ->.
    { destruct (rev b) as [|x b'] eqn:Eb.
      - apply (f_equal (@rev _)) in Eb. now rewrite rev_involutive in Eb.
      - rewrite Hsplit in Hl. simpl in Hl.
        rewrite rev_app_distr, Eb in Hl. simpl in Hl. injection Hl as ->.
        apply blank_rev in Hb. rewrite Eb in Hb. inversion Hb; congruence. }
    simpl in Hsplit. rewrite app_nil_r in Hsplit. now symmetry.
Qed.

(** A text returned by [normalize] is stripped and not empty. *)
Lemma normalize_returns (file : UploadFile) (w : world) (text : pystr) :
  outcome (normalize file) w = Return text ->
  text <> [] /\ strip text = text.
Proof.
  intros Hr.
  destruct (in_list (content_type file) supported_types) eqn:Hs.
  - rewrite (normalize_outcome _ _ Hs) in Hr.
    destruct (outcome (extract file) w) as [t|e] eqn:He; [|discriminate].
    destruct (not_ t) eqn:Hn; [discriminate|].
    injection Hr as <-. apply not_false_iff in Hn. split; [exact Hn|].
    destruct (extract_stripped _ _ _ He) as (s & ->).
    apply strip_idempotent.
  - unfold outcome in Hr. rewrite (normalize_unsupported _ _ Hs) in Hr.
    discriminate.
Qed.

End Effects.

(** ** The job-description endpoint as a whole *)


(** X2.  The handler returns a response exactly when [normalize] returns a
    text and the summarizer, called on that text in the store as [normalize]
    left it, returns; the response holds the data and the identifier of the
    summarizer, unchanged. *)
Theorem response_iff
    {R : Runtime} (file : UploadFile) (w : world) (resp : response) :
  outcome (process_job_description file) w = Return resp <->
  exists text w' d,
    normalize file w = (Return text, w') /\
    summarize_job_description text (db w')
    = (Return (resp_jd_data resp, resp_jd_id resp), d).
Proof.
  unfold outcome, process_job_description, bind.
  destruct (normalize file w) as [[t|e] w']; simpl.
  - unfold respond, try_except, bind, summarize.
    destruct (summarize_job_description t (db w')) as [[[data id]|e] d] eqn:Hs;
      simpl; split.
    + intros [= <-]. exists t, w', d. now split.
    + intros (text & w'' & d' & [= <- <-] & H). rewrite Hs in H.
      injection H as -> -> _. now destruct resp.
    + discriminate.
    + intros (text & w'' & d' & [= <- <-] & H). rewrite Hs in H.
      discriminate.
  - split; [discriminate|]. intros (text & w'' & d & H & _). discriminate.
Qed.

(** X3.  A request only appends to the trace, touches the upload at most
    once (one read or one parser call) and calls the summarizer at most
    once. *)
Theorem request_effects
    {R : Runtime} (file : UploadFile) (w : world) :
  exists evs,
    events (process_job_description file) w = trace w ++ evs /\
    (List.length (filter is_access evs) <= 1)%nat /\
    (List.length (filter is_summarize evs) <= 1)%nat.
Proof.
  destruct (normalize_world file w) as (evs & Hw & Ha & Hs).
  unfold events, process_job_description, bind.
  destruct (normalize file w) as [[t|e] w']; simpl in *; subst w'.
  - destruct (respond_world t (logged w evs)) as (lvl & msg & d & Hr).
    rewrite Hr. simpl.
    exists (evs ++ [Summarize t; Log lvl msg]).
    rewrite app_assoc. split; [reflexivity|].
    rewrite !filter_app, !length_app, Hs. simpl. lia.
  - exists evs. split; [reflexivity|]. rewrite Hs. simpl. lia.
Qed.

(** X4.  An upload that [normalize] rejects never reaches the summarizer:
    the request adds no summarizer call to the trace and leaves the store of
    the summarizer as it was. *)
Theorem rejection_skips_summarizer
    {R : Runtime} (file : UploadFile) (w : world) (e : pyexc) :
  outcome (normalize file) w = Raise e ->
  db (snd (process_job_description file w)) = db w /\
  exists evs,
    events (process_job_description file) w = trace w ++ evs /\
    filter is_summarize evs = [] /\
    forall text, ~ In (Summarize text) evs.
Proof.
  intros He.
  destruct (normalize_world file w) as (evs & Hw & _ & Hs).
  unfold outcome, events, process_job_description, bind in *.
  destruct (normalize file w) as [[t|e'] w']; simpl in *; [discriminate|].
  subst w'. split; [reflexivity|].
  exists evs. repeat split; try assumption.
  intros text Hin.
  assert (In (Summarize text) (filter is_summarize evs)) as Hf
    by (apply filter_In; now split).
  now rewrite Hs in Hf.
Qed.

Lemma rejection_skips_summarizer_witness :
  db (snd (process_job_description (R := broken)
             (upload "jd.pdf" "application/pdf" (ascii_bytes "%PD"))
             (w0 broken 5))) = 5.
Proof.
  exact (proj1 (rejection_skips_summarizer (R := broken)
                  (upload "jd.pdf" "application/pdf" (ascii_bytes "%PD"))
                  (w0 broken 5) ExtractionError eq_refl)).
Defined.

(** X5.  The summarizer is called with a text exactly when [normalize]
    returned that text, so it only ever sees a text that is not empty and
    already stripped. *)
Theorem summarizer_input_clean
    {R : Runtime} (file : UploadFile) (w : world) :
  exists evs,
    events (process_job_description file) w = trace w ++ evs /\
    forall text,
      In (Summarize text) evs <->
      outcome (normalize file) w = Return text /\
      text <> [] /\ strip text = text.
Proof.
  destruct (normalize_world file w) as (evs & Hw & _ & Hs).
  pose proof (normalize_returns file w) as Hret.
  unfold outcome, events, process_job_description, bind in *.
  destruct (normalize file w) as [[t|e] w']; simpl in *; subst w'.
  - destruct (respond_world t (logged w evs)) as (lvl & msg & d & Hr).
    rewrite Hr. simpl.
    exists (evs ++ [Summarize t; Log lvl msg]).
    rewrite app_assoc. split; [reflexivity|].
    intros text. rewrite in_app_iff. simpl. split.
    + intros [Hin | [[= <-] | [Hin | []]]].
      * assert (In (Summarize text) (filter is_summarize evs)) as Hf
          by (apply filter_In; now split).
        now rewrite Hs in Hf.
      * split; [reflexivity | now apply Hret].
      * discriminate.
    + intros ([= <-] & _). right. now left.
  - exists evs. split; [reflexivity|].
    intros text. split.
    + intros Hin.
      assert (In (Summarize text) (filter is_summarize evs)) as Hf
        by (apply filter_In; now split).
      now rewrite Hs in Hf.
    + intros (H & _). discriminate.
Qed.

(** ** Diagnostics *)

(** X6.  When the extraction of a supported upload fails, the log holds what
    is needed to find out why -- the record with the file name and the
    declared type, then the access that failed, then an error record with the
    text of the exception -- while the caller gets the fixed
    [ExtractionError]. *)
Theorem extraction_failure_logged
    {R : Runtime} (file : UploadFile) (w : world) (e : pyexc) :
  in_list (content_type file) supported_types = true ->
  outcome (extract file) w = Raise e ->
  outcome (normalize file) w = Raise ExtractionError /\
  exists ev,
    is_access ev = true /\
    events (normalize file) w =
    trace w ++ [Log INFO ("Processing file: " ++ fmt (filename file)
                          ++ " (type: " ++ fmt (content_type file) ++ ")");
                ev;
                Log ERROR ("Text extraction failed: " ++ str e)].
Proof.
  intros Hs He. split.
  - now rewrite (normalize_outcome _ _ Hs), He.
  - unfold outcome, events in *. rewrite (normalize_supported _ _ Hs).
    destruct (dispatch_cases _ Hs) as [[_ D] | [[_ D] | [_ D]]].
    + exists Read. split; [reflexivity|].
      rewrite (extract_plain _ _ D) in *. simpl in He. rewrite He. simpl.
      now rewrite <- !app_assoc.
    + exists ExtractText. split; [reflexivity|].
      rewrite (extract_pdf _ _ D) in *. simpl in He. rewrite He. simpl.
      now rewrite <- !app_assoc.
    + exists Document. split; [reflexivity|].
      rewrite (extract_word _ _ D) in *. simpl in He. rewrite He. simpl.
      now rewrite <- !app_assoc.
Qed.

Lemma extraction_failure_logged_witness :
  exists ev,
    is_access ev = true /\
    events (R := broken)
           (normalize (upload "jd.doc" "application/msword" [xd0; xcf]))
           (w0 broken 0)
    = [Log INFO "Processing file: jd.doc (type: application/msword)";
       ev;
       Log ERROR "Text extraction failed: File is not a zip file"].
Proof.
  exact (proj2 (extraction_failure_logged (R := broken)
                  (upload "jd.doc" "application/msword" [xd0; xcf])
                  (w0 broken 0) (Exc "BadZipFile" "File is not a zip file")
                  eq_refl eq_refl)).
Defined.

(** ** PDF uploads *)

(** X7.  For a PDF whose extractor returns the text [s], [normalize] returns
    [s] stripped when [s] has a character that is not whitespace, and raises
    [EmptyContent] when [s] is empty or only whitespace (a scanned document
    without a text layer, for example). *)
Theorem pdf_text_outcome
    {R : Runtime} (file : UploadFile) (w : world) (s : pystr) :
  content_type file = Some "application/pdf"%string ->
  extract_text (content file) = Return s ->
  (has_text s -> outcome (normalize file) w = Return (strip s)) /\
  (blank s -> outcome (normalize file) w = Raise EmptyContent).
Proof.
  intros Hct Hx.
  assert (outcome (normalize file) w =
          if not_ (strip s) then Raise EmptyContent else Return (strip s))
    as Hn.
  { rewrite normalize_outcome by now rewrite Hct.
    unfold outcome. rewrite extract_pdf by now rewrite Hct.
    simpl. now rewrite Hx. }
  split.
  - intros Ht. rewrite Hn.
    apply strip_nonempty, not_false_iff in Ht. now rewrite Ht.
  - intros Hb. rewrite Hn. now rewrite (strip_blank _ Hb).
Qed.

Lemma pdf_text_outcome_witness :
  outcome (R := hello_pdf)
          (normalize (upload "jd.pdf" "application/pdf" (ascii_bytes "%PDF-1.4")))
          (w0 hello_pdf 0)
  = Return (lit "Hello").
Proof.
  refine (proj1 (pdf_text_outcome (R := hello_pdf)
                   (upload "jd.pdf" "application/pdf" (ascii_bytes "%PDF-1.4"))
                   (w0 hello_pdf 0) (lit " Hello ") eq_refl eq_refl) _).
  apply Exists_cons_tl, Exists_cons_hd. reflexivity.
Defined.

(** ** Word uploads *)

(** X8.  The two declared Word types are handled alike: uploads with the same
    content, one declared as legacy [application/msword] and one as Office
    Open XML, have the same outcome, success or failure. *)
Theorem word_types_alike
    {R : Runtime} (f1 f2 : UploadFile) (w1 w2 : world) :
  in_list (content_type f1) word_types = true ->
  in_list (content_type f2) word_types = true ->
  content f1 = content f2 ->
  outcome (normalize f1) w1 = outcome (normalize f2) w2.
Proof.
  intros H1 H2 Hc.
  rewrite !normalize_outcome by now apply word_supported.
  unfold outcome.
  rewrite !extract_word by now apply word_dispatch.
  simpl. now rewrite Hc.
Qed.

Lemma word_types_alike_witness :
  outcome (R := two_lines)
          (normalize (upload "jd.doc" "application/msword" (ascii_bytes "PK")))
          (w0 two_lines 0)
  = outcome (R := two_lines)
            (normalize (upload "jd.docx" docx_type (ascii_bytes "PK")))
            (w0 two_lines 3).
Proof.
  exact (word_types_alike (R := two_lines)
           (upload "jd.doc" "application/msword" (ascii_bytes "PK"))
           (upload "jd.docx" docx_type (ascii_bytes "PK"))
           (w0 two_lines 0) (w0 two_lines 3) eq_refl eq_refl eq_refl).
Defined.

(** ** Whitespace around the text *)

Lemma blank_app (a b : pystr) : blank a -> blank b -> blank (a ++ b).
Proof. unfold blank. intros Ha Hb. apply Forall_app. now split. Qed.

Lemma lstrip_app (s b : pystr) :
  lstrip (s ++ b) =
  match lstrip s with [] => lstrip b | _ :: _ => lstrip s ++ b end.
Proof.
  induction s as [|c s IH]; simpl.
  - reflexivity.
  - destruct (isspace c); [exact IH | reflexivity].
Qed.

Lemma rstrip_app_blank (s b : pystr) : blank b -> rstrip (s ++ b) = rstrip s.
Proof.
  intros Hb. unfold rstrip. rewrite rev_app_distr, lstrip_app.
  rewrite (lstrip_blank _ (blank_rev _ Hb)). reflexivity.
Qed.

(** Whitespace before and after a text does not change what [strip]
    returns. *)
Lemma strip_pad (a s b : pystr) :
  blank a -> blank b -> strip (a ++ s ++ b) = strip s.
Proof.
  intros Ha Hb. unfold strip.
  rewrite (lstrip_app a), (lstrip_blank a Ha), (lstrip_app s).
  destruct (lstrip s) as [|c t] eqn:E.
  - now rewrite (lstrip_blank b Hb).
  - now apply rstrip_app_blank.
Qed.

Lemma join_cons (sep p : pystr) (l : list pystr) :
  join sep (p :: l) =
  match l with [] => p | _ :: _ => p ++ sep ++ join sep l end.
Proof. destruct l; reflexivity. Qed.

Lemma newline_blank : blank newline.
Proof. repeat constructor. Qed.

Lemma join_blank (l : list pystr) : Forall blank l -> blank (join newline l).
Proof.
  induction 1 as [|p l Hp Hl IH].
  - constructor.
  - rewrite join_cons. destruct l; [assumption|].
    apply blank_app; [assumption|].
    apply blank_app; [apply newline_blank | assumption].
Qed.

Lemma join_blank_after (ps post : list pystr) :
  Forall blank post ->
  exists b, blank b /\ join newline (ps ++ post) = join newline ps ++ b.
Proof.
  intros Hpost. induction ps as [|p ps IH].
  - exists (join newline post). split; [now apply join_blank | reflexivity].
  - destruct IH as (b & Hb & E).
    destruct ps as [|q ps].
    + destruct post as [|r post].
      * exists []. split; [apply Forall_nil | simpl; now rewrite app_nil_r].
      * exists (newline ++ join newline (r :: post)). split.
        -- apply blank_app; [apply newline_blank | now apply join_blank].
        -- reflexivity.
    + exists b. split; [assumption|].
      change (join newline ((p :: q :: ps) ++ post))
        with (p ++ newline ++ join newline ((q :: ps) ++ post)).
      change (join newline (p :: q :: ps))
        with (p ++ newline ++ join newline (q :: ps)).
      rewrite E. now rewrite <- !app_assoc.
Qed.

Lemma join_blank_around (pre ps post : list pystr) :
  Forall blank pre -> Forall blank post ->
  exists a b,
    blank a /\ blank b /\
    join newline (pre ++ ps ++ post) = a ++ join newline ps ++ b.
Proof.
  intros Hpre Hpost. induction Hpre as [|p pre Hp Hpre IH].
  - destruct (join_blank_after ps post Hpost) as (b & Hb & E).
    exists [], b. repeat split; [constructor | assumption | exact E].
  - destruct IH as (a & b & Ha & Hb & E).
    simpl app. rewrite join_cons.
    destruct (pre ++ ps ++ post) as [|q l] eqn:El.
    + apply app_eq_nil in El. destruct El as [_ El].
      apply app_eq_nil in El. destruct El as [-> _].
      exists p, []. repeat split; [assumption | constructor |].
      simpl. now rewrite app_nil_r.
    + rewrite E. exists (p ++ newline ++ a), b. repeat split.
      * apply blank_app; [assumption|].
        apply blank_app; [apply newline_blank | assumption].
      * assumption.
      * now rewrite <- !app_assoc.
Qed.

(** X9.  Blank paragraphs at the beginning and at the end of a Word document
    do not count: a document with the paragraphs [ps] and one with blank
    paragraphs before and after them have the same outcome (the same text, or
    both [EmptyContent]).  Blank paragraphs between others are kept, as empty
    lines. *)
Theorem word_blank_paragraphs_ignored
    {R : Runtime} (f1 f2 : UploadFile) (w1 w2 : world)
    (pre ps post : list pystr) :
  in_list (content_type f1) word_types = true ->
  in_list (content_type f2) word_types = true ->
  paragraphs (content f1) = Return ps ->
  paragraphs (content f2) = Return (pre ++ ps ++ post) ->
  Forall blank pre -> Forall blank post ->
  outcome (normalize f1) w1 = outcome (normalize f2) w2.
Proof.
  intros H1 H2 P1 P2 Hpre Hpost.
  rewrite !normalize_outcome by now apply word_supported.
  unfold outcome. rewrite !extract_word by now apply word_dispatch.
  simpl. rewrite P1, P2.
  destruct (join_blank_around pre ps post Hpre Hpost) as (a & b & Ha & Hb & E).
  now rewrite E, (strip_pad a _ b Ha Hb).
Qed.

Lemma word_blank_paragraphs_ignored_witness :
  outcome (R := padded_docx)
          (normalize (upload "a.docx" docx_type []))
          (w0 padded_docx 0)
  = outcome (R := padded_docx)
            (normalize (upload "b.docx" docx_type (ascii_bytes "PK")))
            (w0 padded_docx 0).
Proof.
  refine (word_blank_paragraphs_ignored (R := padded_docx)
            (upload "a.docx" docx_type [])
            (upload "b.docx" docx_type (ascii_bytes "PK"))
            (w0 padded_docx 0) (w0 padded_docx 0)
            [[]; lit "  "] [lit "Hello"; []; lit "World"] [lit " "]
            eq_refl eq_refl eq_refl eq_refl _ _);
    repeat constructor.
Defined.

(** ** The UTF-8 decoder *)

Lemma utf8_decode_cons (b0 : byte) (r0 : bytes) :
  utf8_decode (b0 :: r0) =
  let x0 := Byte.to_N b0 in
  if (x0 <? 0x80)%N then option_map (cons x0) (utf8_decode r0)
  else if between 0xC2 0xDF x0 then
    match r0 with
    | b1 :: r1 =>
        let x1 := Byte.to_N b1 in
        if continuation x1
        then option_map (cons ((x0 - 0xC0) * 64 + low6 x1)%N) (utf8_decode r1)
        else None
    | _ => None
    end
  else if between 0xE0 0xEF x0 then
    match r0 with
    | b1 :: b2 :: r2 =>
        let x1 := Byte.to_N b1 in
        let x2 := Byte.to_N b2 in
        if second_of_three x0 x1 && continuation x2
        then option_map
               (cons ((x0 - 0xE0) * 4096 + low6 x1 * 64 + low6 x2)%N)
               (utf8_decode r2)
        else None
    | _ => None
    end
  else if between 0xF0 0xF4 x0 then
    match r0 with
    | b1 :: b2 :: b3 :: r3 =>
        let x1 := Byte.to_N b1 in
        let x2 := Byte.to_N b2 in
        let x3 := Byte.to_N b3 in
        if second_of_four x0 x1 && continuation x2 && continuation x3
        then option_map
               (cons ((x0 - 0xF0) * 262144 + low6 x1 * 4096
                      + low6 x2 * 64 + low6 x3)%N)
               (utf8_decode r3)
        else None
    | _ => None
    end
  else None.
Proof. reflexivity. Qed.

Ltac to_props :=
  unfold second_of_three, second_of_four, continuation, between, low6 in *;
  repeat match goal with
         | H : (if ?c then _ else _) = true |- _ => destruct c eqn:?
         | H : andb _ _ = true |- _ => apply andb_true_iff in H; destruct H
         | H : N.leb _ _ = true |- _ => apply N.leb_le in H
         | H : N.ltb _ _ = true |- _ => apply N.ltb_lt in H
         | H : N.ltb _ _ = false |- _ => apply N.ltb_ge in H
         | H : N.eqb _ _ = true |- _ => apply N.eqb_eq in H
         | H : N.eqb _ _ = false |- _ => apply N.eqb_neq in H
         end.

(** One step of the decoder: a valid stream is empty or begins with the one
    to four bytes of a scalar value, after which decoding starts afresh. *)
Lemma utf8_decode_step (bs : bytes) (s : pystr) :
  utf8_decode bs = Some s ->
  (bs = [] /\ s = []) \/
  exists pre rest c s',
    bs = pre ++ rest /\ (1 <= List.length pre <= 4)%nat /\
    s = c :: s' /\ utf8_decode rest = Some s' /\ scalar c /\
    forall rest',
      utf8_decode (pre ++ rest') = option_map (cons c) (utf8_decode rest').
Proof.
  destruct bs as [|b0 r0].
  - intros [= <-]. now left.
  - rewrite utf8_decode_cons. cbv zeta. intros H. right.
    pose proof (Byte.to_N_bounded b0) as B0.
    destruct (Byte.to_N b0 <? 0x80)%N eqn:E1.
    { destruct (utf8_decode r0) as [s'|] eqn:Er; [|discriminate].
      injection H as <-.
      exists [b0], r0, (Byte.to_N b0), s'.
      split; [reflexivity|]. split; [simpl; lia|].
      split; [reflexivity|]. split; [exact Er|]. split.
      - unfold scalar. to_props. lia.
      - intros rest'. change ([b0] ++ rest') with (b0 :: rest').
        rewrite utf8_decode_cons. cbv zeta. now rewrite E1. }
    destruct (between 0xC2 0xDF (Byte.to_N b0)) eqn:E2.
    { destruct r0 as [|b1 r1]; [discriminate|].
      destruct (continuation (Byte.to_N b1)) eqn:C1; [|discriminate].
      destruct (utf8_decode r1) as [s'|] eqn:Er; [|discriminate].
      injection H as <-.
      exists [b0; b1], r1,
        ((Byte.to_N b0 - 0xC0) * 64 + low6 (Byte.to_N b1))%N, s'.
      split; [reflexivity|]. split; [simpl; lia|].
      split; [reflexivity|]. split; [exact Er|]. split.
      - unfold scalar. to_props. lia.
      - intros rest'. change ([b0; b1] ++ rest') with (b0 :: b1 :: rest').
        rewrite utf8_decode_cons. cbv zeta. now rewrite E1, E2, C1. }
    destruct (between 0xE0 0xEF (Byte.to_N b0)) eqn:E3.
    { destruct r0 as [|b1 [|b2 r2]]; try discriminate.
      destruct (second_of_three (Byte.to_N b0) (Byte.to_N b1)
                && continuation (Byte.to_N b2)) eqn:C1; [|discriminate].
      destruct (utf8_decode r2) as [s'|] eqn:Er; [|discriminate].
      injection H as <-.
      exists [b0; b1; b2], r2,
        ((Byte.to_N b0 - 0xE0) * 4096 + low6 (Byte.to_N b1) * 64
         + low6 (Byte.to_N b2))%N, s'.
      split; [reflexivity|]. split; [simpl; lia|].
      split; [reflexivity|]. split; [exact Er|]. split.
      - unfold scalar. to_props; lia.
      - intros rest'.
        change ([b0; b1; b2] ++ rest') with (b0 :: b1 :: b2 :: rest').
        rewrite utf8_decode_cons. cbv zeta. now rewrite E1, E2, E3, C1. }
    destruct (between 0xF0 0xF4 (Byte.to_N b0)) eqn:E4; [|discriminate].
    destruct r0 as [|b1 [|b2 [|b3 r3]]]; try discriminate.
    destruct (second_of_four (Byte.to_N b0) (Byte.to_N b1)
              && continuation (Byte.to_N b2)
              && continuation (Byte.to_N b3)) eqn:C1; [|discriminate].
    destruct (utf8_decode r3) as [s'|] eqn:Er; [|discriminate].
    injection H as <-.
    exists [b0; b1; b2; b3], r3,
      ((Byte.to_N b0 - 0xF0) * 262144 + low6 (Byte.to_N b1) * 4096
       + low6 (Byte.to_N b2) * 64 + low6 (Byte.to_N b3))%N, s'.
    split; [reflexivity|]. split; [simpl; lia|].
    split; [reflexivity|]. split; [exact Er|]. split.
    + unfold scalar. to_props; lia.
    + intros rest'.
      change ([b0; b1; b2; b3] ++ rest') with (b0 :: b1 :: b2 :: b3 :: rest').
      rewrite utf8_decode_cons. cbv zeta. now rewrite E1, E2, E3, E4, C1.
Qed.

Lemma utf8_decode_sound (bs : bytes) (s : pystr) :
  utf8_decode bs = Some s ->
  Forall scalar s /\ (List.length s <= List.length bs)%nat.
Proof.
  remember (List.length bs) as n eqn:Hn. revert bs s Hn.
  induction n as [n IH] using lt_wf_ind. intros bs s Hn H.
  destruct (utf8_decode_step _ _ H)
    as [[-> ->] | (pre & rest & c & s' & -> & Hl & -> & Hr & Hc & _)].
  - split; [constructor | simpl; lia].
  - rewrite length_app in Hn.
    destruct (IH (List.length rest) ltac:(lia) rest s' eq_refl Hr) as [Hs Hlen].
    split; [now constructor | simpl; lia].
Qed.

(** Decoding starts afresh after a valid stream. *)
Lemma utf8_decode_app (a b : bytes) (x : pystr) :
  utf8_decode a = Some x ->
  utf8_decode (a ++ b) = option_map (app x) (utf8_decode b).
Proof.
  remember (List.length a) as n eqn:Hn. revert a x Hn.
  induction n as [n IH] using lt_wf_ind. intros a x Hn H.
  destruct (utf8_decode_step _ _ H)
    as [[-> ->] | (pre & rest & c & s' & -> & Hl & -> & Hr & _ & Hstep)].
  - simpl. now destruct (utf8_decode b).
  - rewrite length_app in Hn. rewrite <- app_assoc, Hstep.
    rewrite (IH (List.length rest) ltac:(lia) rest s' eq_refl Hr).
    now destruct (utf8_decode b).
Qed.

Lemma utf8_decode_ascii (bs : bytes) :
  Forall is_ascii bs -> utf8_decode bs = Some (map Byte.to_N bs).
Proof.
  induction 1 as [|b bs Hb _ IH]; [reflexivity|].
  rewrite utf8_decode_cons. cbv zeta.
  apply N.ltb_lt in Hb. now rewrite Hb, IH.
Qed.

Lemma plain_outcome {R : Runtime} (file : UploadFile) (w : world) :
  content_type file = Some "text/plain"%string ->
  outcome (normalize file) w =
  match utf8_decode (content file) with
  | Some s => if not_ (strip s) then Raise EmptyContent else Return (strip s)
  | None => Raise ExtractionError
  end.
Proof.
  intros Hct. rewrite normalize_outcome by now rewrite Hct.
  unfold outcome. rewrite extract_plain by now rewrite Hct.
  simpl. now destruct (utf8_decode (content file)).
Qed.

(** ** Plain-text uploads *)

(** X10.  The text that [normalize] returns for a plain-text upload consists
    of Unicode scalar values only (no surrogate, nothing above U+10FFFF) and
    has at most as many characters as the upload has bytes. *)
Theorem plain_text_scalar
    {R : Runtime} (file : UploadFile) (w : world) (text : pystr) :
  content_type file = Some "text/plain"%string ->
  outcome (normalize file) w = Return text ->
  Forall scalar text /\
  (List.length text <= List.length (content file))%nat.
Proof.
  intros Hct. rewrite (plain_outcome _ _ Hct).
  destruct (utf8_decode (content file)) as [s|] eqn:Hd; [|discriminate].
  destruct (not_ (strip s)); [discriminate|]. intros [= <-].
  destruct (utf8_decode_sound _ _ Hd) as [Hs Hl].
  destruct (strip_split s) as (a & b & E & _ & _).
  rewrite E in Hs, Hl.
  apply Forall_app in Hs. destruct Hs as [_ Hs].
  apply Forall_app in Hs. destruct Hs as [Hs _].
  split; [exact Hs|]. rewrite !length_app in Hl. lia.
Qed.

Lemma plain_text_scalar_witness :
  Forall scalar [0x20AC; 0x20; 0x1F600]%N /\
  (List.length [0x20AC; 0x20; 0x1F600]%N
   <= List.length [x20; xe2; x82; xac; x20; xf0; x9f; x98; x80; x0a])%nat.
Proof.
  exact (plain_text_scalar (R := broken)
           (upload "jd.txt" "text/plain"
              [x20; xe2; x82; xac; x20; xf0; x9f; x98; x80; x0a])
           (w0 broken 0) [0x20AC; 0x20; 0x1F600]%N eq_refl eq_refl).
Defined.

(** X11.  A plain-text upload of ASCII bytes only is never an
    [ExtractionError]: its text is the bytes themselves, stripped, and the
    outcome is that text or, when nothing is left, [EmptyContent]. *)
Theorem ascii_upload_decodes
    {R : Runtime} (file : UploadFile) (w : world) :
  content_type file = Some "text/plain"%string ->
  Forall is_ascii (content file) ->
  outcome (normalize file) w =
  (if not_ (strip (map Byte.to_N (content file)))
   then Raise EmptyContent
   else Return (strip (map Byte.to_N (content file)))) /\
  outcome (normalize file) w <> Raise ExtractionError.
Proof.
  intros Hct Ha. rewrite (plain_outcome _ _ Hct), (utf8_decode_ascii _ Ha).
  split; [reflexivity|].
  destruct (not_ (strip (map Byte.to_N (content file)))); discriminate.
Qed.

Lemma ascii_upload_decodes_witness :
  outcome (R := broken)
          (normalize (upload "jd.txt" "text/plain" (ascii_bytes " C++ ")))
          (w0 broken 0)
  = Return (lit "C++").
Proof.
  refine (proj1 (ascii_upload_decodes (R := broken)
                   (upload "jd.txt" "text/plain" (ascii_bytes " C++ "))
                   (w0 broken 0) eq_refl _)).
  repeat constructor.
Defined.

(** X12.  Whitespace around a valid plain-text upload makes no difference:
    with bytes before and after it that decode to whitespace, the outcome is
    the same. *)
Theorem plain_text_padding
    {R : Runtime} (f1 f2 : UploadFile) (w1 w2 : world)
    (a b : bytes) (sa s sb : pystr) :
  content_type f1 = Some "text/plain"%string ->
  content_type f2 = Some "text/plain"%string ->
  utf8_decode (content f1) = Some s ->
  utf8_decode a = Some sa -> blank sa ->
  utf8_decode b = Some sb -> blank sb ->
  content f2 = a ++ content f1 ++ b ->
  outcome (normalize f1) w1 = outcome (normalize f2) w2.
Proof.
  intros H1 H2 Hs Ha Hba Hb Hbb Hc.
  rewrite (plain_outcome _ _ H1), (plain_outcome _ _ H2), Hc, Hs.
  rewrite (utf8_decode_app _ _ _ Ha), (utf8_decode_app _ _ _ Hs), Hb.
  simpl. now rewrite (strip_pad sa s sb Hba Hbb).
Qed.

Lemma plain_text_padding_witness :
  outcome (R := broken)
          (normalize (upload "a.txt" "text/plain" (ascii_bytes "Rust")))
          (w0 broken 0)
  = outcome (R := broken)
            (normalize (upload "b.txt" "text/plain"
                          ([xc2; xa0; x0a] ++ ascii_bytes "Rust" ++ [x0d; x0a])))
            (w0 broken 0).
Proof.
  refine (plain_text_padding (R := broken)
            (upload "a.txt" "text/plain" (ascii_bytes "Rust"))
            (upload "b.txt" "text/plain"
               ([xc2; xa0; x0a] ++ ascii_bytes "Rust" ++ [x0d; x0a]))
            (w0 broken 0) (w0 broken 0)
            [xc2; xa0; x0a] [x0d; x0a] [0xA0; 0x0A]%N (lit "Rust")
            [0x0D; 0x0A]%N
            eq_refl eq_refl eq_refl eq_refl _ eq_refl _ eq_refl);
    repeat constructor.
Defined.

(** ** The resume endpoint *)

Lemma cvs_run {R : Runtime} {C : Matcher}
    (jd_id : Z) (files : list UploadFile) (w : world) :
  process_candidate_cvs jd_id files w =
  let w1 := logged w [Log INFO ("Processing "
                                ++ str_int (Z.of_nat (List.length files))
                                ++ " CV(s) for JD ID: " ++ str_int jd_id)] in
  match process_cvs jd_id files (db w) with
  | (Return r, d) => (Return r, {| trace := trace w1; db := d |})
  | (Raise (HTTPException s dt), d) =>
      (Raise (HTTPException s dt),
       {| trace := trace w1
                   ++ [Log ERROR ("HTTP error: " ++ str (HTTPException s dt))];
          db := d |})
  | (Raise (Exc cls msg), d) =>
      (Raise (HTTPException 500 ("Internal server error: " ++ msg)),
       {| trace := trace w1 ++ [Log ERROR ("CV processing error: " ++ msg)];
          db := d |})
  end.
Proof.
  unfold process_candidate_cvs, bind, try_except, match_cvs, logger, emit.
  simpl.
  destruct (process_cvs jd_id files (db w)) as [[r|[cls msg|s dt]] d];
    reflexivity.
Qed.



(** X14.  The two endpoints treat an [HTTPException] of their collaborator
    differently: the resume endpoint passes it on with its status, the
    job-description endpoint has no clause for it and reports it with status
    500, the original status and detail becoming part of the new detail. *)
Theorem http_error_passed_or_masked
    {R : Runtime} {C : Matcher}
    (file : UploadFile) (jd_id : Z) (files : list UploadFile)
    (w w' : world) (text : pystr) (status : Z) (detail : string)
    (d d' : store) :
  normalize file w = (Return text, w') ->
  summarize_job_description text (db w')
  = (Raise (HTTPException status detail), d) ->
  process_cvs jd_id files (db w) = (Raise (HTTPException status detail), d') ->
  outcome (process_candidate_cvs jd_id files) w
  = Raise (HTTPException status detail) /\
  outcome (process_job_description file) w
  = Raise (HTTPException 500
             ("Internal server error: " ++ str_int status ++ ": " ++ detail)).
Proof.
  intros Hn Hs Hc. split.
  - unfold outcome. rewrite cvs_run, Hc. reflexivity.
  - exact (process_failure _ _ _ _ _ _ Hn Hs).
Qed.

Lemma http_error_passed_or_masked_witness :
  outcome (R := refusing 404 "Job description not found")
          (process_candidate_cvs
             (C := @matcher_of corrupt_pdf corrupt_docx
                  (summ_http 404 "Job description not found")
                  (cvs_raising (HTTPException 404 "Job description not found")))
             7 [])
          (w0 (refusing 404 "Job description not found") 0)
  = Raise (HTTPException 404 "Job description not found") /\
  outcome (R := refusing 404 "Job description not found")
          (process_job_description
             (upload "jd.txt" "text/plain" (ascii_bytes "Go developer")))
          (w0 (refusing 404 "Job description not found") 0)
  = Raise (HTTPException 500
             "Internal server error: 404: Job description not found").
Proof.
  exact (http_error_passed_or_masked
           (R := refusing 404 "Job description not found")
           (C := @matcher_of corrupt_pdf corrupt_docx
                   (summ_http 404 "Job description not found")
                   (cvs_raising
                      (HTTPException 404 "Job description not found")))
           (upload "jd.txt" "text/plain" (ascii_bytes "Go developer"))
           7 [] (w0 (refusing 404 "Job description not found") 0)
           _ _ 404 "Job description not found" _ _
           eq_refl eq_refl eq_refl).
Defined.

(** ** The cause of each rejection *)

(** X15.  Each of the three rejections of [normalize] has one cause:
    [UnsupportedType] is raised exactly for a declared type outside the
    allow-list, [ExtractionError] exactly when the type is supported and the
    extraction raised, [EmptyContent] exactly when the type is supported and
    the extraction returned the empty text.  So the detail of a rejection
    tells its cause. *)
Theorem rejection_causes
    {R : Runtime} (file : UploadFile) (w : world) :
  (outcome (normalize file) w = Raise UnsupportedType <->
   in_list (content_type file) supported_types = false) /\
  (outcome (normalize file) w = Raise ExtractionError <->
   in_list (content_type file) supported_types = true /\
   exists e, outcome (extract file) w = Raise e) /\
  (outcome (normalize file) w = Raise EmptyContent <->
   in_list (content_type file) supported_types = true /\
   outcome (extract file) w = Return []).
Proof.
  destruct (in_list (content_type file) supported_types) eqn:Hs.
  - rewrite (normalize_outcome _ _ Hs).
    destruct (outcome (extract file) w) as [t|e].
    + destruct t as [|c t]; simpl; repeat split;
        try discriminate; try reflexivity;
        try (intros (_ & e & He); discriminate);
        try (intros (_ & He); discriminate).
    + repeat split; try discriminate; try reflexivity.
      * now exists e.
      * intros (_ & He). discriminate.
  - unfold outcome. rewrite (normalize_unsupported _ _ Hs). simpl.
    split; [|split].
    + split; reflexivity.
    + split; [intros H; discriminate H | intros [H _]; discriminate H].
    + split; [intros H; discriminate H | intros [H _]; discriminate H].
Qed.
